(** * A shallow embedding of [src/src/ai/state_filing_service.py]

    The service drives a browser (Playwright) and a text-generation model
    (LLMService, Ollama).  Both are modelled as an oracle [World] that
    answers every awaited call, given the history of the calls issued so far;
    each call is appended to a trace together with whether it returned or
    raised.  Python values built by [json.loads] and dict literals are
    modelled by [PyVal]; Python exceptions by [exn].  Strings are Rocq
    strings (Latin-1 characters). *)

From Stdlib Require Import String Ascii List Bool Arith NArith Lia.
Import ListNotations.
Open Scope list_scope.
Open Scope string_scope.
Set Warnings "-register-all".

(** ** Python values *)

(** The values [json.loads] produces and the dict literals of the source.
    A number keeps its JSON lexeme; a dict is an association list with
    unique keys, in insertion order. *)
Inductive PyVal : Type :=
| PNone : PyVal
| PBool : bool -> PyVal
| PNum : string -> PyVal
| PStr : string -> PyVal
| PList : list PyVal -> PyVal
| PDict : list (string * PyVal) -> PyVal.

(** Whether the lexeme contains the character [c]. *)
Fixpoint has_char (c : ascii) (s : string) : bool :=
  match s with
  | EmptyString => false
  | String c' rest => (c =? c')%char || has_char c rest
  end.

(** [json.loads] reads a number lexeme as a [float] when it has a fraction,
    an exponent, or is [NaN], [Infinity] or [-Infinity]; as an [int]
    otherwise. *)
Definition num_is_float (s : string) : bool :=
  has_char "." s || has_char "e" s || has_char "E" s || has_char "N" s || has_char "I" s.

(** The digits of a JSON number lexeme: the mantissa's digits [m], the count
    [k] of its fraction digits, the exponent's digits [e] and whether the
    exponent is negative. [phase] is 0 in the integer part, 1 in the
    fraction, 2 in the exponent. *)
Fixpoint num_scan (s : string) (phase : nat) (m k e : N) (eneg : bool) : N * N * N * bool :=
  match s with
  | EmptyString => (m, k, e, eneg)
  | String c rest =>
      let n := N.of_nat (nat_of_ascii c) in
      if (N.leb 48 n && N.leb n 57)%N then
        let dgt := (n - 48)%N in
        match phase with
        | 0 => num_scan rest phase (10 * m + dgt)%N k e eneg
        | 1 => num_scan rest phase (10 * m + dgt)%N (k + 1)%N e eneg
        | _ => num_scan rest phase m k (10 * e + dgt)%N eneg
        end
      else if (c =? ".")%char then num_scan rest 1 m k e eneg
      else if (c =? "e")%char || (c =? "E")%char then num_scan rest 2 m k e eneg
      else if (c =? "-")%char then
        match phase with
        | 0 | 1 => num_scan rest phase m k e eneg
        | _ => num_scan rest phase m k e true
        end
      else num_scan rest phase m k e eneg
  end.

(** A number lexeme denotes zero: an [int] or a [float] whose mantissa has
    only zero digits, or a [float] whose value [m * 10^(+-e) / 10^k] is at
    most [2^-1075], which the correctly rounded parse (to nearest, ties to
    even) takes to [0.0]. [NaN] and the infinities are not zero. *)
Definition num_is_zero (s : string) : bool :=
  if has_char "N" s || has_char "I" s then false else
  let '(m, k, e, eneg) := num_scan s 0 0%N 0%N 0%N false in
  N.eqb m 0 ||
  (num_is_float s &&
   N.leb (m * 10 ^ (if eneg then 0 else e) * 2 ^ 1075)%N (10 ^ (k + if eneg then e else 0))%N).

(** Python truthiness ([bool(v)]). *)
Definition py_truthy (v : PyVal) : bool :=
  match v with
  | PNone => false
  | PBool b => b
  | PNum s => negb (num_is_zero s)
  | PStr s => negb (String.eqb s "")
  | PList l => negb (Nat.eqb (List.length l) 0)
  | PDict d => negb (Nat.eqb (List.length d) 0)
  end.

Fixpoint assoc_get (d : list (string * PyVal)) (k : string) : option PyVal :=
  match d with
  | [] => None
  | (k', v) :: rest => if String.eqb k k' then Some v else assoc_get rest k
  end.

(** [d[k] = v] on a dict: replaces in place, or appends a new key. *)
Fixpoint assoc_set (d : list (string * PyVal)) (k : string) (v : PyVal)
  : list (string * PyVal) :=
  match d with
  | [] => [(k, v)]
  | (k', v') :: rest =>
      if String.eqb k k' then (k', v) :: rest else (k', v') :: assoc_set rest k v
  end.

Definition py_type_name (v : PyVal) : string :=
  match v with
  | PNone => "NoneType"
  | PBool _ => "bool"
  | PNum s => if num_is_float s then "float" else "int"
  | PStr _ => "str"
  | PList _ => "list"
  | PDict _ => "dict"
  end.

(** ** Strings *)

Definition char_of (n : nat) : string := String (ascii_of_nat n) EmptyString.
Definition dq : string := char_of 34.
Definition nl : string := char_of 10.

Definition ascii_lower (c : ascii) : ascii :=
  let n := nat_of_ascii c in
  if Nat.leb 65 n && Nat.leb n 90 then ascii_of_nat (n + 32) else c.

Definition ascii_upper (c : ascii) : ascii :=
  let n := nat_of_ascii c in
  if Nat.leb 97 n && Nat.leb n 122 then ascii_of_nat (n - 32) else c.

Fixpoint map_string (f : ascii -> ascii) (s : string) : string :=
  match s with
  | EmptyString => EmptyString
  | String c rest => String (f c) (map_string f rest)
  end.

(** [str.lower()] and [str.upper()] on letters A-Z / a-z. *)
Definition py_lower (s : string) : string := map_string ascii_lower s.
Definition py_upper (s : string) : string := map_string ascii_upper s.

Fixpoint starts_with (p s : string) : bool :=
  match p, s with
  | EmptyString, _ => true
  | String _ _, EmptyString => false
  | String a p', String b s' => (a =? b)%char && starts_with p' s'
  end.

(** [p in s] for strings. *)
Fixpoint py_contains (s p : string) : bool :=
  starts_with p s ||
  match s with
  | EmptyString => false
  | String _ rest => py_contains rest p
  end.

(** [c.isspace()] for the characters of [str.strip()]. *)
Definition py_isspace (c : ascii) : bool :=
  let n := nat_of_ascii c in
  (Nat.leb 9 n && Nat.leb n 13) || (Nat.leb 28 n && Nat.leb n 32) || Nat.eqb n 133 || Nat.eqb n 160.

Fixpoint lstrip (s : string) : string :=
  match s with
  | EmptyString => EmptyString
  | String c rest => if py_isspace c then lstrip rest else s
  end.

Fixpoint rev_string (s : string) : string :=
  match s with
  | EmptyString => EmptyString
  | String c rest => rev_string rest ++ String c EmptyString
  end.

(** [str.strip()]. *)
Definition py_strip (s : string) : string :=
  rev_string (lstrip (rev_string (lstrip s))).

(** [s[:n]]. *)
Definition py_prefix (n : nat) (s : string) : string := substring 0 n s.

(** ** Exceptions *)

Inductive exn_class : Type :=
| JSONDecodeError
| AttributeError
| KeyError
| ValueError
| TypeError
| RuntimeError
| PlaywrightError
| AssertionError.

Record exn : Type := Exn { exn_cls : exn_class; exn_msg : string }.

(** [str(e)] *)
Definition exn_str (e : exn) : string := exn_msg e.

(** ** Calls to the collaborators *)

(** Every awaited call of the source, with its arguments. *)
Inductive act : Type :=
| ImportPlaywright                       (* from playwright.async_api import ... *)
| PlaywrightStart                        (* async_playwright().start() *)
| Launch (headless : bool)               (* playwright.chromium.launch *)
| NewPage                                (* browser.new_page() *)
| LLMNew                                 (* LLMService() *)
| Generate (prompt : string)             (* llm.generate(prompt) *)
| Goto (url : PyVal) (timeout : option N)
| WaitForLoadState (state : string) (timeout : option N)
| Content                                (* page.content() *)
| PageUrl                                (* page.url *)
| Fill (selector : PyVal) (value : PyVal)
| Click (selector : PyVal)
| TextContent (selector : string)
| Screenshot (path : string)
| BrowserClose
| PlaywrightStop.

(** One issued call and whether it returned normally. *)
Inductive event : Type := Ev (a : act) (ok : bool).

Definition ev_act (e : event) : act := let 'Ev a _ := e in a.
Definition ev_ok (e : event) : bool := let 'Ev _ ok := e in ok.

(** The environment: given the calls issued so far, the answer to the next
    call, for calls returning [None], a [str] and an [Optional[str]]. *)
Record World : Type := {
  w_unit : list event -> act -> option exn;
  w_str : list event -> act -> exn + string;
  w_optstr : list event -> act -> exn + option string
}.

(** ** The effect monad: a trace of calls and Python exceptions *)

Definition M (A : Type) : Type := list event -> (exn + A) * list event.

Definition ret {A} (a : A) : M A := fun tr => (inr a, tr).

Definition bind {A B} (m : M A) (f : A -> M B) : M B :=
  fun tr => match m tr with
            | (inl e, tr') => (inl e, tr')
            | (inr a, tr') => f a tr'
            end.

Definition raise {A} (e : exn) : M A := fun tr => (inl e, tr).

Notation "x <- m ;; k" := (bind m (fun x => k))
  (at level 61, m at next level, right associativity).
Notation "m ;;; k" := (bind m (fun _ => k))
  (at level 61, right associativity).

(** [try: m except <class in handled>: h]. *)
Definition try_except {A} (m : M A) (handled : exn -> bool) (h : exn -> M A)
  : M A :=
  fun tr => match m tr with
            | (inl e, tr') => if handled e then h e tr' else (inl e, tr')
            | r => r
            end.

(** [except Exception:] catches every modelled exception. *)
Definition any_exception (_ : exn) : bool := true.

Definition is_json_error (e : exn) : bool :=
  match exn_cls e with JSONDecodeError => true | _ => false end.

(** [try: m finally: fin]: [fin] always runs; its exception wins. *)
Definition try_finally {A} (m : M A) (fin : M unit) : M A :=
  fun tr => match m tr with
            | (r, tr') =>
                match fin tr' with
                | (inl e, tr'') => (inl e, tr'')
                | (inr _, tr'') => (r, tr'')
                end
            end.

Section Calls.
Variable w : World.

Definition call_unit (a : act) : M unit :=
  fun tr => match w_unit w tr a with
            | None => (inr tt, (tr ++ [Ev a true])%list)
            | Some e => (inl e, (tr ++ [Ev a false])%list)
            end.

Definition call_str (a : act) : M string :=
  fun tr => match w_str w tr a with
            | inr s => (inr s, (tr ++ [Ev a true])%list)
            | inl e => (inl e, (tr ++ [Ev a false])%list)
            end.

Definition call_optstr (a : act) : M (option string) :=
  fun tr => match w_optstr w tr a with
            | inr s => (inr s, (tr ++ [Ev a true])%list)
            | inl e => (inl e, (tr ++ [Ev a false])%list)
            end.

End Calls.

(** ** Dict operations *)

(** [v.get(k, default)] *)
Definition py_get_default (v : PyVal) (k : string) (default : PyVal) : M PyVal :=
  match v with
  | PDict d => ret (match assoc_get d k with Some x => x | None => default end)
  | _ => raise (Exn AttributeError
                  ("'" ++ py_type_name v ++ "' object has no attribute 'get'"))
  end.

(** [v.get(k)] *)
Definition py_get (v : PyVal) (k : string) : M PyVal := py_get_default v k PNone.

(** [v[k]] *)
Definition py_getitem (v : PyVal) (k : string) : M PyVal :=
  match v with
  | PDict d =>
      match assoc_get d k with
      | Some x => ret x
      | None => raise (Exn KeyError ("'" ++ k ++ "'"))
      end
  | _ => raise (Exn TypeError
                  ("'" ++ py_type_name v ++ "' object is not subscriptable"))
  end.

(** [v.items()] *)
Definition py_items (v : PyVal) : M (list (string * PyVal)) :=
  match v with
  | PDict d => ret d
  | _ => raise (Exn AttributeError
                  ("'" ++ py_type_name v ++ "' object has no attribute 'items'"))
  end.

(** [v.values()] *)
Definition py_values (v : PyVal) : M (list PyVal) :=
  match v with
  | PDict d => ret (map snd d)
  | _ => raise (Exn AttributeError
                  ("'" ++ py_type_name v ++ "' object has no attribute 'values'"))
  end.

(** ** The jurisdiction registry *)

Definition US_STATES : list (string * string) := [
  ("AL", "Alabama"); ("AK", "Alaska"); ("AZ", "Arizona"); ("AR", "Arkansas"); ("CA", "California");
  ("CO", "Colorado"); ("CT", "Connecticut"); ("DE", "Delaware"); ("FL", "Florida"); ("GA", "Georgia");
  ("HI", "Hawaii"); ("ID", "Idaho"); ("IL", "Illinois"); ("IN", "Indiana"); ("IA", "Iowa");
  ("KS", "Kansas"); ("KY", "Kentucky"); ("LA", "Louisiana"); ("ME", "Maine"); ("MD", "Maryland");
  ("MA", "Massachusetts"); ("MI", "Michigan"); ("MN", "Minnesota"); ("MS", "Mississippi"); ("MO", "Missouri");
  ("MT", "Montana"); ("NE", "Nebraska"); ("NV", "Nevada"); ("NH", "New Hampshire"); ("NJ", "New Jersey");
  ("NM", "New Mexico"); ("NY", "New York"); ("NC", "North Carolina"); ("ND", "North Dakota"); ("OH", "Ohio");
  ("OK", "Oklahoma"); ("OR", "Oregon"); ("PA", "Pennsylvania"); ("RI", "Rhode Island"); ("SC", "South Carolina");
  ("SD", "South Dakota"); ("TN", "Tennessee"); ("TX", "Texas"); ("UT", "Utah"); ("VT", "Vermont");
  ("VA", "Virginia"); ("WA", "Washington"); ("WV", "West Virginia"); ("WI", "Wisconsin"); ("WY", "Wyoming")].

Fixpoint lookup_state (tbl : list (string * string)) (k : string) : option string :=
  match tbl with
  | [] => None
  | (k', v) :: rest => if String.eqb k k' then Some v else lookup_state rest k
  end.

(** The attributes of a [StateFilingService] object. *)
Record Service : Type := mkService {
  state_code : string;
  state_name : string;
  headless : bool;
  config : PyVal;          (* None until research has run *)
  playwright : bool;       (* self.playwright is not None *)
  browser : bool;          (* self.browser is not None *)
  page : bool              (* self.page is not None *)
}.

(** [StateFilingService.__init__] *)
Definition StateFilingService_init (code : string) (headless : bool) : exn + Service :=
  let c := py_upper code in
  match lookup_state US_STATES c with
  | None => inl (Exn ValueError
                   ("Invalid state code: " ++ code ++ ". Must be valid US state code."))
  | Some name => inr (mkService c name headless PNone false false false)
  end.

(** [StateFilingService.get_supported_states] *)
Definition get_supported_states : list string := map fst US_STATES.

(** [StateFilingService.is_state_supported] *)
Definition is_state_supported (code : string) : bool :=
  match lookup_state US_STATES (py_upper code) with
  | Some _ => true
  | None => false
  end.

Definition set_config (s : Service) (c : PyVal) : Service :=
  mkService (state_code s) (state_name s) (headless s) c (playwright s) (browser s) (page s).

(** ** Constant tables and prompts *)

Definition q (s : string) : string := dq ++ s ++ dq.

(** [StateFilingService._get_fallback_config] *)
Definition get_fallback_config (s : Service) : PyVal :=
  PDict [("name", PStr (state_name s));
         ("base_url", PStr ("https://sos." ++ py_lower (state_code s) ++ ".gov/"));
         ("login_url", PNone);
         ("llc_form_url", PNone);
         ("online_filing_available", PBool false);
         ("typical_requirements", PList [PStr "business_name"; PStr "registered_agent"]);
         ("notes", PStr "Research failed - manual verification needed")].

(** [StateFilingService._get_generic_selectors] *)
Definition get_generic_selectors : PyVal :=
  PDict [("username", PStr ("input[type=" ++ q "text" ++ "], input[type=" ++ q "email" ++
                            "], input[name*=" ++ q "user" ++ "], input[name*=" ++ q "email" ++ "]"));
         ("password", PStr ("input[type=" ++ q "password" ++ "]"));
         ("login_button", PStr ("button[type=" ++ q "submit" ++ "], input[type=" ++ q "submit" ++
                                "], button:contains(" ++ q "Login" ++ ")"));
         ("business_name", PStr ("input[name*=" ++ q "name" ++ "], input[name*=" ++ q "entity" ++ "]"));
         ("registered_agent_name", PStr ("input[name*=" ++ q "agent" ++ "]"));
         ("registered_agent_address", PStr ("textarea[name*=" ++ q "address" ++ "], input[name*=" ++
                                            q "address" ++ "]"));
         ("purpose", PStr ("textarea[name*=" ++ q "purpose" ++ "]"));
         ("submit_button", PStr ("button[type=" ++ q "submit" ++ "], input[type=" ++ q "submit" ++ "]"))].

(** The f-string of [research_state_filing_process]. *)
Definition research_prompt (s : Service) : string :=
  let name := state_name s in
  let code := state_code s in
  nl ++ "You are a business registration research assistant. I need to find the official Secretary of State website and LLC filing process for " ++ name ++ " (" ++ code ++ ")." ++ nl ++ nl ++
  "Please provide ONLY a JSON response with this exact structure:" ++ nl ++
  "{" ++ nl ++
  "    " ++ q "name" ++ ": " ++ q name ++ "," ++ nl ++
  "    " ++ q "base_url" ++ ": " ++ q "official SOS website URL" ++ "," ++ nl ++
  "    " ++ q "login_url" ++ ": " ++ q "login/account page URL if online filing available" ++ "," ++ nl ++
  "    " ++ q "llc_form_url" ++ ": " ++ q "direct URL to LLC formation page or form" ++ "," ++ nl ++
  "    " ++ q "online_filing_available" ++ ": true/false," ++ nl ++
  "    " ++ q "typical_requirements" ++ ": [" ++ q "list" ++ ", " ++ q "of" ++ ", " ++ q "required" ++ ", " ++ q "information" ++ "]," ++ nl ++
  "    " ++ q "estimated_cost" ++ ": " ++ q "filing fee if known" ++ "," ++ nl ++
  "    " ++ q "notes" ++ ": " ++ q "any important process notes" ++ nl ++
  "}" ++ nl ++ nl ++
  "State: " ++ name ++ " (" ++ code ++ ")" ++ nl ++
  "Focus: Limited Liability Company (LLC) formation" ++ nl ++
  "Requirement: Must be official government (.gov) websites only" ++ nl.

(** The f-string of [discover_form_selectors]. *)
Definition selector_prompt (html : string) : string :=
  nl ++ "Analyze this HTML page content and identify CSS selectors for LLC filing form fields." ++ nl ++ nl ++
  "HTML Content (first 4000 characters):" ++ nl ++
  html ++ nl ++ nl ++
  "Find CSS selectors for these common LLC filing fields and return ONLY valid JSON:" ++ nl ++
  "{" ++ nl ++
  "    " ++ q "username" ++ ": " ++ q "CSS selector for username/email field" ++ "," ++ nl ++
  "    " ++ q "password" ++ ": " ++ q "CSS selector for password field" ++ ", " ++ nl ++
  "    " ++ q "login_button" ++ ": " ++ q "CSS selector for login/submit button" ++ "," ++ nl ++
  "    " ++ q "business_name" ++ ": " ++ q "CSS selector for entity/business name field" ++ "," ++ nl ++
  "    " ++ q "registered_agent_name" ++ ": " ++ q "CSS selector for registered agent name" ++ "," ++ nl ++
  "    " ++ q "registered_agent_address" ++ ": " ++ q "CSS selector for agent address" ++ "," ++ nl ++
  "    " ++ q "purpose" ++ ": " ++ q "CSS selector for business purpose field" ++ "," ++ nl ++
  "    " ++ q "submit_button" ++ ": " ++ q "CSS selector for form submit button" ++ nl ++
  "}" ++ nl ++ nl ++
  "Rules:" ++ nl ++
  "- Use specific selectors like input[name=" ++ q "field_name" ++ "] or #field_id" ++ nl ++
  "- If a field doesn't exist, use null" ++ nl ++
  "- Return valid JSON only" ++ nl.

(** ** The service's methods *)

Section Service_methods.

(** The collaborators' answers. *)
Variable w : World.
(** [json.loads]: [None] where it raises [json.JSONDecodeError]. *)
Variable json_loads : string -> option PyVal.

Definition json_loads_py (s : string) : M PyVal :=
  match json_loads s with
  | Some v => ret v
  | None => raise (Exn JSONDecodeError "Expecting value")
  end.

Definition no_page {A} (attr : string) : M A :=
  raise (Exn AttributeError ("'NoneType' object has no attribute '" ++ attr ++ "'")).

(** [await self.page.<attr>(...)], failing when [self.page] is None. *)
Definition page_unit (s : Service) (a : act) (attr : string) : M unit :=
  if page s then call_unit w a else no_page attr.

Definition page_str (s : Service) (a : act) (attr : string) : M string :=
  if page s then call_str w a else no_page attr.

Definition page_optstr (s : Service) (a : act) (attr : string) : M (option string) :=
  if page s then call_optstr w a else no_page attr.

(** [research_state_filing_process] *)
Definition research_state_filing_process (s : Service) : M PyVal :=
  call_unit w LLMNew ;;;
  research_result <- call_str w (Generate (research_prompt s)) ;;
  try_except
    (config <- json_loads_py (py_strip research_result) ;;
     _ <- py_get_default config "base_url" (PStr "Unknown URL") ;;
     ret config)
    is_json_error
    (fun _ => ret (get_fallback_config s)).

(** [discover_form_selectors] *)
Definition discover_form_selectors (s : Service) (target_url : PyVal) : M PyVal :=
  try_except
    (page_unit s (Goto target_url (Some 30000%N)) "goto" ;;;
     page_unit s (WaitForLoadState "networkidle" (Some 10000%N)) "wait_for_load_state" ;;;
     page_content <- page_str s Content "content" ;;
     call_unit w LLMNew ;;;
     selectors_response <- call_str w (Generate (selector_prompt (py_prefix 4000 page_content))) ;;
     try_except
       (selectors <- json_loads_py (py_strip selectors_response) ;;
        _ <- py_values selectors ;;
        ret selectors)
       is_json_error
       (fun _ => ret get_generic_selectors))
    any_exception
    (fun _ => ret get_generic_selectors).

(** [login] *)
Definition login (s : Service) (username password : string) : M bool :=
  try_except
    (available <- (if py_truthy (config s)
                   then v <- py_get (config s) "online_filing_available" ;; ret (py_truthy v)
                   else ret false) ;;
     if negb available then ret false else
     login_url <- py_get (config s) "login_url" ;;
     if negb (py_truthy login_url) then ret false else
     selectors <- discover_form_selectors s login_url ;;
     u <- py_get selectors "username" ;;
     p <- (if py_truthy u then py_get selectors "password" else ret PNone) ;;
     if py_truthy u && py_truthy p then
       u' <- py_getitem selectors "username" ;;
       page_unit s (Fill u' (PStr username)) "fill" ;;;
       p' <- py_getitem selectors "password" ;;
       page_unit s (Fill p' (PStr password)) "fill" ;;;
       lb <- py_get selectors "login_button" ;;
       if py_truthy lb then
         lb' <- py_getitem selectors "login_button" ;;
         page_unit s (Click lb') "click" ;;;
         page_unit s (WaitForLoadState "networkidle" None) "wait_for_load_state" ;;;
         url <- page_str s PageUrl "url" ;;
         let current_url := py_lower url in
         ret (negb (py_contains current_url "login" || py_contains current_url "error"))
       else ret false
     else ret false)
    any_exception
    (fun _ => ret false).

(** [navigate_to_llc_filing] *)
Definition navigate_to_llc_filing (s : Service) : M bool :=
  try_except
    (llc_url <- (if py_truthy (config s) then py_get (config s) "llc_form_url" else ret PNone) ;;
     if negb (py_truthy llc_url) then ret false else
     page_unit s (Goto llc_url None) "goto" ;;;
     page_unit s (WaitForLoadState "networkidle" None) "wait_for_load_state" ;;;
     ret true)
    any_exception
    (fun _ => ret false).

(** [current_url = self.page.url; selectors = await self.discover_form_selectors(current_url)],
    the first two lines of [fill_llc_formation] and [submit_form]. *)
Definition discover_current (s : Service) : M PyVal :=
  current_url <- page_str s PageUrl "url" ;;
  discover_form_selectors s (PStr current_url).

(** [field_name == key and business_data.get(key)] *)
Definition field_is_set (data : PyVal) (field_name key : string) : M bool :=
  if String.eqb field_name key
  then v <- py_get data key ;; ret (py_truthy v)
  else ret false.

(** The body of the inner [try] of [fill_llc_formation]'s loop:
    the count after the field, or the exception it raised. *)
Definition fill_field (s : Service) (data : PyVal) (field_name : string) (selector : PyVal)
  (filled_fields : nat) : M nat :=
  c1 <- field_is_set data field_name "business_name" ;;
  if c1 then
    v <- py_getitem data "business_name" ;;
    page_unit s (Fill selector v) "fill" ;;;
    _ <- py_getitem data "business_name" ;;
    ret (S filled_fields)
  else
  c2 <- field_is_set data field_name "registered_agent_name" ;;
  if c2 then
    v <- py_getitem data "registered_agent_name" ;;
    page_unit s (Fill selector v) "fill" ;;;
    ret (S filled_fields)
  else
  c3 <- field_is_set data field_name "registered_agent_address" ;;
  if c3 then
    v <- py_getitem data "registered_agent_address" ;;
    page_unit s (Fill selector v) "fill" ;;;
    ret (S filled_fields)
  else
  if String.eqb field_name "purpose" then
    purpose <- py_get_default data "purpose" (PStr "All lawful purposes") ;;
    page_unit s (Fill selector purpose) "fill" ;;;
    ret (S filled_fields)
  else ret filled_fields.

(** [field_name in ["username", "password", "login_button"]] *)
Definition login_field (field_name : string) : bool :=
  String.eqb field_name "username" || String.eqb field_name "password" ||
  String.eqb field_name "login_button".

(** [for field_name, selector in selectors.items(): ...] *)
Fixpoint fill_loop (s : Service) (data : PyVal) (items : list (string * PyVal))
  (filled_fields : nat) : M nat :=
  match items with
  | [] => ret filled_fields
  | (field_name, selector) :: rest =>
      if negb (py_truthy selector) || login_field field_name
      then fill_loop s data rest filled_fields
      else
        n <- try_except (fill_field s data field_name selector filled_fields)
                        any_exception (fun _ => ret filled_fields) ;;
        fill_loop s data rest n
  end.

(** [fill_llc_formation] *)
Definition fill_llc_formation (s : Service) (business_data : PyVal) : M bool :=
  try_except
    (selectors <- discover_current s ;;
     items <- py_items selectors ;;
     filled_fields <- fill_loop s business_data items 0 ;;
     ret (Nat.ltb 0 filled_fields))
    any_exception
    (fun _ => ret false).

(** [submit_form] *)
Definition submit_form (s : Service) : M PyVal :=
  try_except
    (selectors <- discover_current s ;;
     submit_selector <- py_get selectors "submit_button" ;;
     if py_truthy submit_selector then
       page_unit s (Click submit_selector) "click" ;;;
       page_unit s (WaitForLoadState "networkidle" None) "wait_for_load_state" ;;;
       confirmation_text <- page_optstr s (TextContent "body") "text_content" ;;
       url <- page_str s PageUrl "url" ;;
       ret (PDict [("success", PBool true);
                   ("state", PStr (state_name s));
                   ("confirmation", PStr (py_prefix 500 (match confirmation_text with
                                                         | Some t => t
                                                         | None => "" end)));
                   ("url", PStr url)])
     else
       ret (PDict [("success", PBool false);
                   ("state", PStr (state_name s));
                   ("error", PStr "No submit button found")]))
    any_exception
    (fun e => ret (PDict [("success", PBool false);
                          ("state", PStr (state_name s));
                          ("error", PStr (exn_str e))])).

(** [__aenter__] *)
Definition aenter (s : Service) : M Service :=
  try_except (call_unit w ImportPlaywright) any_exception
    (fun _ => raise (Exn RuntimeError
       ("Playwright is required. Install it and Chromium:" ++ nl ++
        "  python -m pip install playwright" ++ nl ++
        "  python -m playwright install chromium"))) ;;;
  call_unit w PlaywrightStart ;;;          (* self.playwright = ... *)
  call_unit w (Launch (headless s)) ;;;     (* self.browser = ... *)
  call_unit w NewPage ;;;                   (* self.page = ... *)
  let s3 := mkService (state_code s) (state_name s) (headless s) (config s) true true true in
  cfg <- research_state_filing_process s3 ;;
  ret (set_config s3 cfg).

(** [__aexit__] *)
Definition aexit (s : Service) : M unit :=
  try_finally
    (if browser s then call_unit w BrowserClose else ret tt)
    (if playwright s then call_unit w PlaywrightStop else ret tt).

(** [async with s as svc: body(svc)]: [__aexit__] runs after the body,
    whether it returned or raised; an exception of [__aenter__] skips it. *)
Definition async_with {A} (s : Service) (body : Service -> M A) : M A :=
  s' <- aenter s ;;
  try_finally (body s') (aexit s').

(** [async with StateFilingService(code, headless=headless) as svc: body(svc)] *)
Definition open_session {A} (code : string) (hl : bool) (body : Service -> M A) : M A :=
  match StateFilingService_init code hl with
  | inl e => raise e
  | inr s => async_with s body
  end.

End Service_methods.

(** ** A concrete [json.loads]

    The theorems above hold for every [json_loads]; concrete runs use this
    parser of the JSON texts [json.loads] accepts (strict mode, plus [NaN],
    [Infinity], [-Infinity]).  Numbers keep their lexeme; a repeated key
    keeps its first position and its last value, as a dict does; [\u]
    escapes beyond U+00FF are not Latin-1 characters and are rejected. *)
Module Json.

Definition dq_char : ascii := ascii_of_nat 34.
Definition bs_char : ascii := ascii_of_nat 92.

Definition is_json_ws (c : ascii) : bool :=
  let n := nat_of_ascii c in Nat.eqb n 32 || Nat.eqb n 9 || Nat.eqb n 10 || Nat.eqb n 13.

Fixpoint skip_ws (s : string) : string :=
  match s with
  | String c rest => if is_json_ws c then skip_ws rest else s
  | EmptyString => EmptyString
  end.

Definition is_digit (c : ascii) : bool :=
  Nat.leb 48 (nat_of_ascii c) && Nat.leb (nat_of_ascii c) 57.

(** The longest run of digits at the front of [s], and what follows it. *)
Fixpoint digits (s : string) : string * string :=
  match s with
  | String c rest =>
      if is_digit c then let '(d, r) := digits rest in (String c d, r) else ("", s)
  | EmptyString => ("", "")
  end.

Definition hex_val (c : ascii) : option nat :=
  let n := nat_of_ascii c in
  if Nat.leb 48 n && Nat.leb n 57 then Some (n - 48)
  else if Nat.leb 97 n && Nat.leb n 102 then Some (n - 87)
  else if Nat.leb 65 n && Nat.leb n 70 then Some (n - 55)
  else None.

Definition escape (e : ascii) : option ascii :=
  let n := nat_of_ascii e in
  if Nat.eqb n 34 then Some e
  else if Nat.eqb n 92 then Some e
  else if Nat.eqb n 47 then Some e
  else if Nat.eqb n 98 then Some (ascii_of_nat 8)
  else if Nat.eqb n 102 then Some (ascii_of_nat 12)
  else if Nat.eqb n 110 then Some (ascii_of_nat 10)
  else if Nat.eqb n 114 then Some (ascii_of_nat 13)
  else if Nat.eqb n 116 then Some (ascii_of_nat 9)
  else None.

(** The body of a string literal after its opening quote. *)
Fixpoint parse_str (s : string) : option (string * string) :=
  match s with
  | EmptyString => None
  | String c rest =>
      if (c =? dq_char)%char then Some ("", rest)
      else if (c =? bs_char)%char then
        match rest with
        | String e rest' =>
            match escape e with
            | Some ch =>
                match parse_str rest' with
                | Some (b, r) => Some (String ch b, r)
                | None => None
                end
            | None =>
                if (e =? "u")%char then
                  match rest' with
                  | String h1 (String h2 (String h3 (String h4 rest''))) =>
                      match hex_val h1, hex_val h2, hex_val h3, hex_val h4 with
                      | Some a, Some b, Some c', Some d =>
                          let code := ((a * 16 + b) * 16 + c') * 16 + d in
                          if Nat.ltb code 256 then
                            match parse_str rest'' with
                            | Some (b', r) => Some (String (ascii_of_nat code) b', r)
                            | None => None
                            end
                          else None
                      | _, _, _, _ => None
                      end
                  | _ => None
                  end
                else None
            end
        | EmptyString => None
        end
      else if Nat.ltb (nat_of_ascii c) 32 then None
      else
        match parse_str rest with
        | Some (b, r) => Some (String c b, r)
        | None => None
        end
  end.

(** A JSON number: optional minus, [0] or a digit run not starting with 0,
    optional fraction [.digits], optional exponent [e]/[E], sign, digits. *)
Definition parse_number (s : string) : option (string * string) :=
  let '(sign, s1) := match s with
                     | String c r => if (c =? "-")%char then ("-", r) else ("", s)
                     | EmptyString => ("", s)
                     end in
  let '(int, s2) := match s1 with
                    | String c r =>
                        if (c =? "0")%char then (Some "0", r)
                        else if is_digit c then let '(d, r') := digits s1 in (Some d, r')
                        else (None, s1)
                    | EmptyString => (None, s1)
                    end in
  match int with
  | None => None
  | Some i =>
      let '(frac, s3) := match s2 with
                         | String c r =>
                             if (c =? ".")%char then
                               let '(d, r') := digits r in
                               if String.eqb d "" then ("", s2) else ("." ++ d, r')
                             else ("", s2)
                         | EmptyString => ("", s2)
                         end in
      let '(ex, s4) := match s3 with
                       | String c r =>
                           if (c =? "e")%char || (c =? "E")%char then
                             let '(sg, r1) := match r with
                                              | String c' r' =>
                                                  if (c' =? "+")%char || (c' =? "-")%char
                                                  then (String c' "", r') else ("", r)
                                              | EmptyString => ("", r)
                                              end in
                             let '(d, r2) := digits r1 in
                             if String.eqb d "" then ("", s3) else (String c sg ++ d, r2)
                           else ("", s3)
                       | EmptyString => ("", s3)
                       end in
      Some (sign ++ i ++ frac ++ ex, s4)
  end.

Definition drop (n : nat) (s : string) : string := substring n (String.length s - n) s.

Fixpoint parse_value (fuel : nat) (s : string) {struct fuel} : option (PyVal * string) :=
  match fuel with
  | O => None
  | S f =>
      let s := skip_ws s in
      match s with
      | EmptyString => None
      | String c rest =>
          if (c =? "{")%char then
            match skip_ws rest with
            | String c' r => if (c' =? "}")%char then Some (PDict [], r)
                             else parse_members f (skip_ws rest) []
            | EmptyString => None
            end
          else if (c =? "[")%char then
            match skip_ws rest with
            | String c' r => if (c' =? "]")%char then Some (PList [], r)
                             else parse_elems f (skip_ws rest) []
            | EmptyString => None
            end
          else if (c =? dq_char)%char then
            match parse_str rest with
            | Some (b, r) => Some (PStr b, r)
            | None => None
            end
          else if starts_with "null" s then Some (PNone, drop 4 s)
          else if starts_with "true" s then Some (PBool true, drop 4 s)
          else if starts_with "false" s then Some (PBool false, drop 5 s)
          else if starts_with "NaN" s then Some (PNum "NaN", drop 3 s)
          else if starts_with "Infinity" s then Some (PNum "Infinity", drop 8 s)
          else if starts_with "-Infinity" s then Some (PNum "-Infinity", drop 9 s)
          else match parse_number s with
               | Some (n, r) => Some (PNum n, r)
               | None => None
               end
      end
  end
with parse_elems (fuel : nat) (s : string) (acc : list PyVal) {struct fuel}
  : option (PyVal * string) :=
  match fuel with
  | O => None
  | S f =>
      match parse_value f s with
      | None => None
      | Some (v, r) =>
          match skip_ws r with
          | String c r' =>
              if (c =? ",")%char then parse_elems f r' ((acc ++ [v])%list)
              else if (c =? "]")%char then Some (PList ((acc ++ [v])%list), r')
              else None
          | EmptyString => None
          end
      end
  end
with parse_members (fuel : nat) (s : string) (acc : list (string * PyVal)) {struct fuel}
  : option (PyVal * string) :=
  match fuel with
  | O => None
  | S f =>
      match skip_ws s with
      | String c r =>
          if (c =? dq_char)%char then
            match parse_str r with
            | None => None
            | Some (k, r1) =>
                match skip_ws r1 with
                | String c1 r2 =>
                    if (c1 =? ":")%char then
                      match parse_value f r2 with
                      | None => None
                      | Some (v, r3) =>
                          match skip_ws r3 with
                          | String c3 r4 =>
                              if (c3 =? ",")%char then parse_members f r4 (assoc_set acc k v)
                              else if (c3 =? "}")%char then Some (PDict (assoc_set acc k v), r4)
                              else None
                          | EmptyString => None
                          end
                      end
                    else None
                | EmptyString => None
                end
            end
          else None
      | EmptyString => None
      end
  end.

(** [json.loads(s)]: one value, then only whitespace.  Every call consumes
    a character or is followed by one that does, so the fuel never runs out. *)
Definition loads (s : string) : option PyVal :=
  match parse_value (2 * String.length s + 2) s with
  | Some (v, r) => match skip_ws r with EmptyString => Some v | _ => None end
  | None => None
  end.

End Json.

(** ** Helpers for the statements *)

(** [d.get(k)] on a dict. *)
Definition dict_get (d : list (string * PyVal)) (k : string) : PyVal :=
  match assoc_get d k with Some v => v | None => PNone end.

Definition failed_event (e : event) : bool := negb (ev_ok e).

(** ** Concrete environments *)

(** A world where every call succeeds, the model always replies [reply]
    and the page's URL is [url]. *)
Definition scripted_world (reply url : string) : World := {|
  w_unit := fun _ _ => None;
  w_str := fun _ a => match a with
                      | Generate _ => inr reply
                      | PageUrl => inr url
                      | _ => inr "<html><body><form></form></body></html>"
                      end;
  w_optstr := fun _ _ => inr (Some "Filing received")
|}.

(** A Texas session after [__aenter__], with configuration [cfg]. *)
Definition tx_session (cfg : PyVal) : Service := mkService "TX" "Texas" false cfg true true true.

(** A model reply that is JSON but has no ["name"] key. *)
Definition no_name_reply : string :=
  "{" ++ q "online_filing_available" ++ ": true, " ++
  q "login_url" ++ ": " ++ q "https://sos.tx.gov/account" ++ "}".

(** The calls [discover_form_selectors] and [discover_current] may issue. *)
Definition discovery_act (a : act) : bool :=
  match a with
  | PageUrl | Content | LLMNew | Generate _ => true
  | Goto _ (Some _) | WaitForLoadState _ (Some _) => true
  | _ => false
  end.

(** The calls [discover_form_selectors] itself may issue. *)
Definition discover_call_act (a : act) : bool :=
  match a with
  | Content | LLMNew | Generate _ => true
  | Goto _ (Some _) | WaitForLoadState _ (Some _) => true
  | _ => false
  end.

(** A configuration researched for Texas that has no online filing but a
    form URL. *)
Definition offline_tx_config : PyVal :=
  PDict [("name", PStr "Texas");
         ("online_filing_available", PBool false);
         ("llc_form_url", PStr "https://sos.tx.gov/llc")].

(** A [StateFilingService("TX")] before [__aenter__]. *)
Definition tx_fresh : Service := mkService "TX" "Texas" false PNone false false false.

(** ** Writes of the fill stage *)

Definition fill_ok (e : event) : bool :=
  match e with Ev (Fill _ _) true => true | _ => false end.

(** The number of [page.fill] calls in [evs] that completed. *)
Definition written_fields (evs : list event) : nat := length (filter fill_ok evs).

Definition is_fill (e : event) : bool :=
  match ev_act e with Fill _ _ => true | _ => false end.

Definition data_field (field_name : string) : bool :=
  String.eqb field_name "business_name" || String.eqb field_name "registered_agent_name" ||
  String.eqb field_name "registered_agent_address".

(** The value the spec's fill stage (as amended) writes for a field: for
    business_name, registered_agent_name and registered_agent_address the
    data's value, none when it is absent or empty; for purpose the data's
    value, or "All lawful purposes" when the data has no purpose key;
    nothing for any other field. *)
Definition field_value_spec (dd : list (string * PyVal)) (field_name : string) : option PyVal :=
  if data_field field_name then
    (if py_truthy (dict_get dd field_name) then Some (dict_get dd field_name) else None)
  else if String.eqb field_name "purpose" then
    Some (match assoc_get dd "purpose" with Some v => v | None => PStr "All lawful purposes" end)
  else None.

(** The (selector, value) writes the amended claim describes, in the order
    of the selector map, skipping absent selectors. *)
Fixpoint fill_writes_spec (dd sels : list (string * PyVal)) : list (PyVal * PyVal) :=
  match sels with
  | [] => []
  | (field_name, selector) :: rest =>
      ((if py_truthy selector then
          match field_value_spec dd field_name with
          | Some v => [(selector, v)]
          | None => []
          end
        else []) ++ fill_writes_spec dd rest)%list
  end.

Definition relevant_field (field_name : string) : bool :=
  data_field field_name || String.eqb field_name "purpose".

(** No relevant field has a selector in [d]. *)
Definition no_relevant_selector (d : list (string * PyVal)) : bool :=
  forallb (fun '(k, v) => negb (py_truthy v) || negb (relevant_field k)) d.

(** A selector reply exposing only a purpose field. *)
Definition purpose_only_reply : string := "{" ++ q "purpose" ++ ": " ++ q "#purpose" ++ "}".

(** A selector reply exposing only a business-name field. *)
Definition business_name_only_reply : string :=
  "{" ++ q "business_name" ++ ": " ++ q "#entity" ++ "}".

(** A configuration researched for Texas with online filing and a login page. *)
Definition online_tx_config : PyVal :=
  PDict [("name", PStr "Texas"); ("online_filing_available", PBool true);
         ("login_url", PStr "https://sos.tx.gov/account")].

(** A world whose model reply is not JSON and whose page, after the login
    click, is at [url]. *)
Definition login_world (url : string) : World := scripted_world "no selectors here" url.

(** A world like [login_world] where the wait after the login click times out. *)
Definition wait_timeout_world : World := {|
  w_unit := fun _ a => match a with
                       | WaitForLoadState _ None => Some (Exn PlaywrightError "Timeout 30000ms exceeded.")
                       | _ => None
                       end;
  w_str := w_str (login_world "https://sos.tx.gov/dashboard");
  w_optstr := w_optstr (login_world "https://sos.tx.gov/dashboard")
|}.


(** * The callers: [src/src/ai/chat_service.py] and [take_screenshot] *)

(** [v.upper()] on a value that should be a [str]. *)
Definition py_str_upper (v : PyVal) : M string :=
  match v with
  | PStr s => ret (py_upper s)
  | _ => raise (Exn AttributeError
                  ("'" ++ py_type_name v ++ "' object has no attribute 'upper'"))
  end.

(** [StateFilingService.is_state_supported(v)] on a value. *)
Definition is_state_supported_py (v : PyVal) : M bool :=
  match v with
  | PStr s => ret (is_state_supported s)
  | _ => raise (Exn AttributeError
                  ("'" ++ py_type_name v ++ "' object has no attribute 'upper'"))
  end.

(** [len(v)] *)
Definition py_len (v : PyVal) : M nat :=
  match v with
  | PStr s => ret (String.length s)
  | PList l => ret (List.length l)
  | PDict d => ret (List.length d)
  | _ => raise (Exn TypeError ("object of type '" ++ py_type_name v ++ "' has no len()"))
  end.

(** [{**v, ...}]: the entries of a mapping. *)
Definition py_unpack (v : PyVal) : M (list (string * PyVal)) :=
  match v with
  | PDict d => ret d
  | _ => raise (Exn TypeError ("'" ++ py_type_name v ++ "' object is not a mapping"))
  end.

(** [{k0: v0, **d}]: the entries of [d] are set, in order, after [k0]. *)
Definition dict_update (acc d : list (string * PyVal)) : list (string * PyVal) :=
  fold_left (fun a '(k, v) => assoc_set a k v) d acc.

(** The f-string of [generate_business_suggestions]. *)
Definition suggestions_prompt (partial_request : string) : string :=
  nl ++ "Based on this business request: " ++ q partial_request ++ nl ++ nl ++
  "Suggest:" ++ nl ++
  "1. 3 professional LLC business names (must include LLC)" ++ nl ++
  "2. Appropriate business purpose statement" ++ nl ++
  "3. Recommended business structure (LLC, Corporation, etc.)" ++ nl ++ nl ++
  "Return as JSON:" ++ nl ++
  "{" ++ nl ++
  "    " ++ q "suggested_names" ++ ": [" ++ q "Name 1 LLC" ++ ", " ++ q "Name 2 LLC" ++ ", " ++ q "Name 3 LLC" ++ "]," ++ nl ++
  "    " ++ q "purpose" ++ ": " ++ q "business purpose statement" ++ "," ++ nl ++
  "    " ++ q "recommended_structure" ++ ": " ++ q "LLC" ++ "," ++ nl ++
  "    " ++ q "reasoning" ++ ": " ++ q "why this structure is recommended" ++ nl ++
  "}" ++ nl.

(** The dict [generate_business_suggestions] returns when any step fails. *)
Definition suggestions_fallback : PyVal :=
  PDict [("success", PBool false);
         ("error", PStr "Could not generate suggestions");
         ("suggested_names", PList [PStr "Your Business LLC"; PStr "Professional Services LLC";
                                    PStr "Consulting Group LLC"]);
         ("purpose", PStr "All lawful purposes");
         ("recommended_structure", PStr "LLC")].

(** The suffixes [validate_business_data] looks for. *)
Definition llc_suffixes : list string := ["LLC"; "L.L.C."; "LIMITED LIABILITY COMPANY"].

Section Chat_methods.

Variable w : World.
Variable json_loads : string -> option PyVal.
(** [await self.nlu.extract_entities(user_message)] *)
Variable nlu_extract : string -> M PyVal.
(** [repr(v)], as the f-string [{entities}] formats a dict. *)
Variable py_repr : PyVal -> string.

(** [StateFilingService.take_screenshot] *)
Definition take_screenshot (s : Service) (filename : option string) : M string :=
  if negb (page s) then raise (Exn AssertionError "") else
  let fn := match filename with
            | Some f => if String.eqb f "" then state_code s ++ "_llc_form.png" else f
            | None => state_code s ++ "_llc_form.png"
            end in
  call_unit w (Screenshot fn) ;;;
  ret fn.

(** [async with StateFilingService(v, headless=...) as svc: body(svc)] for a
    value [v]: [__init__] calls [v.upper()]. *)
Definition open_session_py {A} (v : PyVal) (hl : bool) (body : Service -> M A) : M A :=
  match v with
  | PStr code => open_session w json_loads code hl body
  | _ => raise (Exn AttributeError
                  ("'" ++ py_type_name v ++ "' object has no attribute 'upper'"))
  end.

(** The [business_data] dict of [file_with_state] and [submit_filing]. *)
Definition build_business_data (entities : PyVal) : M PyVal :=
  bn <- py_get entities "business_name" ;;
  an <- py_get entities "owner_name" ;;
  ad <- py_get entities "address" ;;
  pu <- py_get_default entities "purpose" (PStr "All lawful purposes") ;;
  ret (PDict [("business_name", bn); ("registered_agent_name", an);
              ("registered_agent_address", ad); ("purpose", pu)]).

(** The dict [file_with_state] returns when a stage fails. *)
Definition stage_failure (state_code : PyVal) (fs : Service) (msg : string) : PyVal :=
  PDict [("success", PBool false); ("state", state_code);
         ("state_name", PStr (state_name fs)); ("error", PStr msg)].

(** [ChatService.file_with_state] *)
Definition file_with_state (entities : PyVal) (sos_username sos_password : string) : M PyVal :=
  state_code <- py_get entities "state_code" ;;
  if negb (py_truthy state_code) then
    ret (PDict [("success", PBool false); ("error", PStr "No state specified in entities")])
  else
  match state_code with
  | PStr code =>
      if negb (is_state_supported code) then
        ret (PDict [("success", PBool false);
                    ("error", PStr ("Invalid state code: " ++ code ++ ". Must be valid US state code."))])
      else
      try_except
        (open_session w json_loads code false (fun fs =>
           login_success <- login w json_loads fs sos_username sos_password ;;
           if negb login_success then
             ret (stage_failure state_code fs
                    ("Login to " ++ state_name fs ++ " SOS failed. Please check credentials."))
           else
           nav_success <- navigate_to_llc_filing w fs ;;
           if negb nav_success then
             ret (stage_failure state_code fs "Failed to navigate to LLC filing page")
           else
           business_data <- build_business_data entities ;;
           fill_success <- fill_llc_formation w json_loads fs business_data ;;
           if negb fill_success then
             ret (stage_failure state_code fs "Failed to fill LLC formation form")
           else
           screenshot_path <- take_screenshot fs None ;;
           ret (PDict [("success", PBool true); ("state", state_code);
                       ("state_name", PStr (state_name fs));
                       ("logged_in", PBool true); ("form_filled", PBool true);
                       ("ready_to_submit", PBool true);
                       ("preview_screenshot", PStr screenshot_path);
                       ("business_data", business_data);
                       ("research_config", config fs);
                       ("message", PStr ("Form filled successfully for " ++ state_name fs ++
                                         ". Review screenshot before submitting."))])))
        any_exception
        (fun e => ret (PDict [("success", PBool false); ("state", state_code);
                              ("error", PStr ("Filing service error: " ++ exn_str e))]))
  | _ => raise (Exn AttributeError
                  ("'" ++ py_type_name state_code ++ "' object has no attribute 'upper'"))
  end.

(** [ChatService.submit_filing] *)
Definition submit_filing (entities : PyVal) (sos_username sos_password : string) : M PyVal :=
  state_code <- py_get entities "state_code" ;;
  if negb (py_truthy state_code) then
    ret (PDict [("success", PBool false); ("error", PStr "No state specified")])
  else
  try_except
    (open_session_py state_code false (fun fs =>
       login w json_loads fs sos_username sos_password ;;;
       navigate_to_llc_filing w fs ;;;
       business_data <- build_business_data entities ;;
       fill_llc_formation w json_loads fs business_data ;;;
       result <- submit_form w json_loads fs ;;
       d <- py_unpack result ;;
       ts <- py_get_default result "url" (PStr "Unknown") ;;
       ret (PDict (assoc_set (assoc_set d "business_data" business_data)
                             "submission_timestamp" ts))))
    any_exception
    (fun e => ret (PDict [("success", PBool false); ("state", state_code);
                          ("error", PStr ("Submission failed: " ++ exn_str e))])).

(** [ChatService.research_state_requirements] *)
Definition research_state_requirements (state_code : string) : M PyVal :=
  if negb (is_state_supported state_code) then
    ret (PDict [("success", PBool false); ("error", PStr ("Invalid state code: " ++ state_code))])
  else
  try_except
    (open_session w json_loads state_code false (fun fs =>
       req <- py_get_default (config fs) "typical_requirements" (PList []) ;;
       cost <- py_get_default (config fs) "estimated_cost" (PStr "Unknown") ;;
       onl <- py_get_default (config fs) "online_filing_available" (PBool false) ;;
       notes <- py_get_default (config fs) "notes" (PStr "") ;;
       ret (PDict [("success", PBool true); ("state", PStr state_code);
                   ("state_name", PStr (state_name fs));
                   ("research_results", config fs); ("requirements", req);
                   ("estimated_cost", cost); ("online_filing_available", onl);
                   ("notes", notes)])))
    any_exception
    (fun e => ret (PDict [("success", PBool false); ("state", PStr state_code);
                          ("error", PStr ("Research failed: " ++ exn_str e))])).

(** The prompt of [process_registration_request]. *)
Definition registration_prompt (user_message : string) (entities : PyVal) : string :=
  "You are a helpful business registration assistant. " ++
  "Based on the following request and extracted entities, " ++
  "generate a single clear confirmation sentence starting with 'I'll help you'." ++ nl ++ nl ++
  "User request: " ++ user_message ++ nl ++
  "Extracted entities: " ++ py_repr entities ++ nl ++ nl ++
  "Response (one sentence):".

(** [ChatService.process_registration_request] *)
Definition process_registration_request (user_message : string) : M PyVal :=
  try_except
    (entities <- nlu_extract user_message ;;
     confirmation <- call_str w (Generate (registration_prompt user_message entities)) ;;
     state_code <- py_get entities "state_code" ;;
     filing_available <- (if py_truthy state_code then is_state_supported_py state_code
                          else ret false) ;;
     bt <- py_get entities "business_type" ;;
     both <- (if py_truthy bt then sc <- py_get entities "state_code" ;; ret (py_truthy sc)
              else ret false) ;;
     suggested_next <-
       (if both then
          ret (if filing_available then "proceed_to_registration_form" else "invalid_state_code")
        else
          bt' <- py_get entities "business_type" ;;
          if negb (py_truthy bt') then ret "ask_for_business_type" else
          sc' <- py_get entities "state_code" ;;
          if negb (py_truthy sc') then ret "ask_for_state" else
          ret "collect_missing_info") ;;
     ret (PDict [("original_message", PStr user_message);
                 ("entities", entities);
                 ("confirmation", PStr (py_strip confirmation));
                 ("suggested_next", PStr suggested_next);
                 ("filing_available", PBool filing_available);
                 ("supported_states", if filing_available then PNone
                                      else PList (map PStr get_supported_states))]))
    any_exception
    (fun e => ret (PDict [("original_message", PStr user_message);
                          ("entities", PDict []);
                          ("confirmation", PStr "I apologize, but I encountered an error processing your request.");
                          ("suggested_next", PStr "error_occurred");
                          ("filing_available", PBool false);
                          ("error", PStr (exn_str e))])).

(** [ChatService.generate_business_suggestions] *)
Definition generate_business_suggestions (partial_request : string) : M PyVal :=
  try_except
    (suggestions_json <- call_str w (Generate (suggestions_prompt partial_request)) ;;
     suggestions <- json_loads_py json_loads (py_strip suggestions_json) ;;
     d <- py_unpack suggestions ;;
     ret (PDict (dict_update [("success", PBool true)] d)))
    any_exception
    (fun _ => ret suggestions_fallback).

End Chat_methods.

(** [ChatService.is_filing_available] *)
Definition is_filing_available (v : PyVal) : M bool := is_state_supported_py v.

(** [ChatService.validate_business_data]; it awaits nothing, so its trace
    is untouched. *)
Definition validate_business_data (entities : PyVal) : M PyVal :=
  bn <- py_get entities "business_name" ;;
  let errors1 := if py_truthy bn then [] else ["Business name is required"] in
  sc <- py_get entities "state_code" ;;
  errors <- (if negb (py_truthy sc) then ret (app errors1 ["State code is required"])
             else
               code <- py_getitem entities "state_code" ;;
               ok <- is_filing_available code ;;
               if ok then ret errors1
               else
                 code' <- py_getitem entities "state_code" ;;
                 match code' with
                 | PStr c => ret (app errors1 ["State " ++ c ++ " is not a valid US state"])
                 | _ => ret errors1   (* [code'] is the [str] [is_filing_available] accepted *)
                 end) ;;
  on <- py_get entities "owner_name" ;;
  let warnings1 := if py_truthy on then []
                   else ["Registered agent name not specified - may be required by state"] in
  ad <- py_get entities "address" ;;
  let warnings2 := app warnings1
                    (if py_truthy ad then []
                     else ["Registered agent address not specified - required by most states"]) in
  business_name <- py_get_default entities "business_name" (PStr "") ;;
  warnings <- (if py_truthy business_name then
                 n <- py_len business_name ;;
                 let warnings3 := app warnings2
                                   (if Nat.ltb n 3 then ["Business name seems very short"] else []) in
                 upper <- py_str_upper business_name ;;
                 if existsb (fun suffix => py_contains upper suffix) llc_suffixes
                 then ret warnings3
                 else ret (app warnings3 ["Business name should include 'LLC' or 'Limited Liability Company'"])
               else ret warnings2) ;;
  ret (PDict [("valid", PBool (Nat.eqb (List.length errors) 0));
              ("errors", PList (map PStr errors));
              ("warnings", PList (map PStr warnings));
              ("entities", entities)]).

(** * [src/src/ai/nlu_service.py]: state normalisation and entity extraction *)

(** The module's [US_STATES]: lower-case name to code, with the District of
    Columbia. *)
Definition NLU_US_STATES : list (string * string) := [
  ("alabama", "AL"); ("alaska", "AK"); ("arizona", "AZ"); ("arkansas", "AR");
  ("california", "CA"); ("colorado", "CO"); ("connecticut", "CT"); ("delaware", "DE");
  ("florida", "FL"); ("georgia", "GA"); ("hawaii", "HI"); ("idaho", "ID");
  ("illinois", "IL"); ("indiana", "IN"); ("iowa", "IA"); ("kansas", "KS");
  ("kentucky", "KY"); ("louisiana", "LA"); ("maine", "ME"); ("maryland", "MD");
  ("massachusetts", "MA"); ("michigan", "MI"); ("minnesota", "MN");
  ("mississippi", "MS"); ("missouri", "MO"); ("montana", "MT");
  ("nebraska", "NE"); ("nevada", "NV"); ("new hampshire", "NH");
  ("new jersey", "NJ"); ("new mexico", "NM"); ("new york", "NY");
  ("north carolina", "NC"); ("north dakota", "ND"); ("ohio", "OH");
  ("oklahoma", "OK"); ("oregon", "OR"); ("pennsylvania", "PA");
  ("rhode island", "RI"); ("south carolina", "SC"); ("south dakota", "SD");
  ("tennessee", "TN"); ("texas", "TX"); ("utah", "UT"); ("vermont", "VT");
  ("virginia", "VA"); ("washington", "WA"); ("west virginia", "WV");
  ("wisconsin", "WI"); ("wyoming", "WY"); ("district of columbia", "DC")].

(** A letter A-Z or a-z. *)
Definition is_cased (c : ascii) : bool :=
  let n := nat_of_ascii c in
  (Nat.leb 65 n && Nat.leb n 90) || (Nat.leb 97 n && Nat.leb n 122).

Fixpoint title_from (prev_cased : bool) (s : string) : string :=
  match s with
  | EmptyString => EmptyString
  | String c rest =>
      String (if is_cased c then (if prev_cased then ascii_lower c else ascii_upper c) else c)
             (title_from (is_cased c) rest)
  end.

(** [str.title()]: a letter is upper-cased after a non-letter, lower-cased
    after a letter. *)
Definition py_title (s : string) : string := title_from false s.

(** [NLUService._normalize_state] *)
Definition normalize_state (text : string) : option (string * string) :=
  if String.eqb text "" then None else
  let t := py_lower (py_strip text) in
  if Nat.eqb (String.length t) 2 &&
     existsb (fun '(_, c) => String.eqb c (py_upper t)) NLU_US_STATES then
    let code := py_upper t in
    let full := match find (fun '(_, c) => String.eqb c code) NLU_US_STATES with
                | Some (name, _) => py_title name
                | None => code
                end in
    Some (full, code)
  else
    match lookup_state NLU_US_STATES t with
    | Some code => Some (py_title t, code)
    | None => None
    end.

(** [s.isspace() or s == ""]: every character of [s] is white space. *)
Fixpoint py_all_space (s : string) : bool :=
  match s with
  | EmptyString => true
  | String c rest => py_isspace c && py_all_space rest
  end.

(** The [result] dict of [extract_entities], field by field. *)
Record Entities : Type := mkEntities {
  e_business_type : PyVal;
  e_business_name : PyVal;
  e_owner_name : PyVal;
  e_address : PyVal;
  e_state : PyVal;
  e_state_code : PyVal;
  e_ein : PyVal;
  e_email : PyVal;
  e_phone : PyVal;
  e_formation_date : PyVal;
  e_raw_entities : list PyVal
}.

Definition entities_init : Entities :=
  mkEntities PNone PNone PNone PNone PNone PNone PNone PNone PNone PNone [].

Definition entities_dict (r : Entities) : PyVal :=
  PDict [("business_type", e_business_type r); ("business_name", e_business_name r);
         ("owner_name", e_owner_name r); ("address", e_address r);
         ("state", e_state r); ("state_code", e_state_code r);
         ("ein", e_ein r); ("email", e_email r); ("phone", e_phone r);
         ("formation_date", e_formation_date r);
         ("raw_entities", PList (e_raw_entities r))].

Definition is_none (v : PyVal) : bool := match v with PNone => true | _ => false end.

Definition set_business_type (r : Entities) (v : PyVal) : Entities :=
  mkEntities v (e_business_name r) (e_owner_name r) (e_address r) (e_state r) (e_state_code r)
    (e_ein r) (e_email r) (e_phone r) (e_formation_date r) (e_raw_entities r).
Definition set_business_name (r : Entities) (v : PyVal) : Entities :=
  mkEntities (e_business_type r) v (e_owner_name r) (e_address r) (e_state r) (e_state_code r)
    (e_ein r) (e_email r) (e_phone r) (e_formation_date r) (e_raw_entities r).
Definition set_owner_name (r : Entities) (v : PyVal) : Entities :=
  mkEntities (e_business_type r) (e_business_name r) v (e_address r) (e_state r) (e_state_code r)
    (e_ein r) (e_email r) (e_phone r) (e_formation_date r) (e_raw_entities r).
Definition set_state (r : Entities) (st code : PyVal) : Entities :=
  mkEntities (e_business_type r) (e_business_name r) (e_owner_name r) (e_address r) st code
    (e_ein r) (e_email r) (e_phone r) (e_formation_date r) (e_raw_entities r).
Definition add_raw (r : Entities) (v : PyVal) : Entities :=
  mkEntities (e_business_type r) (e_business_name r) (e_owner_name r) (e_address r) (e_state r)
    (e_state_code r) (e_ein r) (e_email r) (e_phone r) (e_formation_date r)
    (e_raw_entities r ++ [v])%list.

(** The value the loop stores in [business_type] for an entity text. *)
Definition business_type_of (text_val : string) : PyVal :=
  let low := py_lower text_val in
  if py_contains low "llc" then PStr "LLC"
  else if existsb (fun x => py_contains low x) ["corporation"; "corp"; "inc"]
  then PStr "Corporation"
  else PStr text_val.

(** One pass of the [for ent in doc.ents] loop; an entity is its label and
    its text. *)
Definition ent_step (r0 : Entities) (ent : string * string) : Entities :=
  let '(label, ent_text) := ent in
  let text_val := py_strip ent_text in
  let r := add_raw r0 (PDict [("text", PStr text_val); ("label", PStr label)]) in
  let low := py_lower text_val in
  if String.eqb label "BUSINESS_TYPE" ||
     (String.eqb label "ORG" && is_none (e_business_type r) &&
      existsb (fun k => py_contains low k) ["llc"; "corporation"; "inc"; "corp"]) then
    set_business_type r (business_type_of text_val)
  else if String.eqb label "ORG" && is_none (e_business_name r) then
    set_business_name r (PStr text_val)
  else if String.eqb label "PERSON" && is_none (e_owner_name r) then
    set_owner_name r (PStr text_val)
  else if (String.eqb label "GPE" || String.eqb label "LOC") && is_none (e_state r) then
    match normalize_state text_val with
    | Some (full, code) => set_state r (PStr full) (PStr code)
    | None => r
    end
  else r.

Section Extraction_regexes.

(** [self._regex[field].search(text)], as [match.group(0)]: the first match
    of the field's compiled pattern, or [None]. *)
Variable regex_search : string -> string -> option string.

(** [for field, pattern in self._regex.items(): if result[field] is None: ...],
    over ["ein"], ["phone"], ["email"] in that order. *)
Definition regex_pass (text : string) (r : Entities) : Entities :=
  let opt f := match regex_search f text with Some m => PStr m | None => PNone end in
  let r1 := if is_none (e_ein r) then
              mkEntities (e_business_type r) (e_business_name r) (e_owner_name r) (e_address r)
                (e_state r) (e_state_code r) (opt "ein") (e_email r) (e_phone r)
                (e_formation_date r) (e_raw_entities r)
            else r in
  let r2 := if is_none (e_phone r1) then
              mkEntities (e_business_type r1) (e_business_name r1) (e_owner_name r1) (e_address r1)
                (e_state r1) (e_state_code r1) (e_ein r1) (e_email r1) (opt "phone")
                (e_formation_date r1) (e_raw_entities r1)
            else r1 in
  if is_none (e_email r2) then
    mkEntities (e_business_type r2) (e_business_name r2) (e_owner_name r2) (e_address r2)
      (e_state r2) (e_state_code r2) (e_ein r2) (opt "email") (e_phone r2)
      (e_formation_date r2) (e_raw_entities r2)
  else r2.

(** [NLUService.extract_entities], given the entities spaCy found in [text]. *)
Definition extract_entities (text : string) (ents : list (string * string)) : PyVal :=
  entities_dict (regex_pass text (fold_left ent_step ents entities_init)).

End Extraction_regexes.

(** ** Helpers for the statements about the callers *)

(** The [business_data] dict built from the entries [dd] of [entities]. *)
Definition business_data_of (dd : list (string * PyVal)) : PyVal :=
  PDict [("business_name", dict_get dd "business_name");
         ("registered_agent_name", dict_get dd "owner_name");
         ("registered_agent_address", dict_get dd "address");
         ("purpose", match assoc_get dd "purpose" with
                     | Some v => v
                     | None => PStr "All lawful purposes"
                     end)].

(** A [str] or [None]. *)
Definition str_or_none (v : PyVal) : bool :=
  match v with PNone | PStr _ => true | _ => false end.

(** A [str] the filing service's registry accepts. *)
Definition accepted_code (v : PyVal) : bool :=
  match v with PStr c => is_state_supported c | _ => false end.

(** An entity with label [l]. *)
Definition has_label (l : string) (ent : string * string) : bool := String.eqb (fst ent) l.

(** A [GPE] or [LOC] entity whose text names a state. *)
Definition place_entity (ent : string * string) : bool :=
  (String.eqb (fst ent) "GPE" || String.eqb (fst ent) "LOC") &&
  match normalize_state (py_strip (snd ent)) with Some _ => true | None => false end.

(** The [raw_entities] record of an entity. *)
Definition raw_record (ent : string * string) : PyVal :=
  PDict [("text", PStr (py_strip (snd ent))); ("label", PStr (fst ent))].

(** [v.get(k)] on the dict [extract_entities] returns. *)
Definition entity_field (v : PyVal) (k : string) : PyVal :=
  match v with PDict d => dict_get d k | _ => PNone end.

(** The regex field [f] of [text], as [result[f]] holds it. *)
Definition regex_value (regex_search : string -> string -> option string) (f text : string) : PyVal :=
  match regex_search f text with Some m => PStr m | None => PNone end.


(** A model reply that serves both as a researched configuration with online
    filing and as the selectors of the login and LLC forms. *)
Definition filing_reply : string :=
  ("{" ++ q "online_filing_available" ++ ": true, " ++
   q "login_url" ++ ": " ++ q "https://sos.tx.gov/login" ++ ", " ++
   q "llc_form_url" ++ ": " ++ q "https://sos.tx.gov/llc" ++ ", " ++
   q "username" ++ ": " ++ q "#user" ++ ", " ++
   q "password" ++ ": " ++ q "#pass" ++ ", " ++
   q "login_button" ++ ": " ++ q "#go" ++ ", " ++
   q "business_name" ++ ": " ++ q "#name" ++ ", " ++
   q "submit_button" ++ ": " ++ q "#submit" ++ "}")%string.

(** A world where every call succeeds and the site accepts the login. *)
Definition filing_world : World := scripted_world filing_reply "https://sos.tx.gov/home".

(** Entities for a Texas LLC. *)
Definition tx_entities : list (string * PyVal) :=
  [("state_code", PStr "tx"); ("business_name", PStr "Acme LLC");
   ("owner_name", PStr "Jane Roe")].


(** * Proofs *)

Open Scope list_scope.


(** Case analysis on the collaborators' answers, as the code branches on them. *)
Ltac answer_step :=
  match goal with
  | |- context [w_unit ?w ?h ?a] => destruct (w_unit w h a) eqn:?
  | |- context [w_str ?w ?h ?a] => destruct (w_str w h a) eqn:?
  | |- context [w_optstr ?w ?h ?a] => destruct (w_optstr w h a) eqn:?
  end.

Ltac close_trace :=
  repeat rewrite <- app_assoc; simpl;
  match goal with
  | |- exists evs sm, (?r, ?tr ++ ?l) = (inr sm, ?tr ++ evs) /\ _ => exists l
  | |- exists evs sm, (?r, ?tr) = (inr sm, ?tr ++ evs) /\ _ => exists (@nil event); rewrite app_nil_r
  end;
  eexists; split; [reflexivity | simpl].

(** ** C10: discovery never raises; any failing step yields the generic table *)
Theorem C10_discover_total (w : World) (json_loads : string -> option PyVal)
  (s : Service) (target_url : PyVal) (tr : list event) :
  exists evs sm,
    discover_form_selectors w json_loads s target_url tr = (inr sm, tr ++ evs) /\
    ((page s = false \/ existsb failed_event evs = true) -> sm = get_generic_selectors).
Proof.
  unfold discover_form_selectors, try_except, bind, page_unit, page_str, call_unit,
    call_str, no_page, raise, ret, json_loads_py, py_values.
  destruct (page s) eqn:Hp.
  - repeat (answer_step; simpl).
    all: try (destruct (json_loads _) as [v|]; [destruct v|]; simpl).
    all: close_trace.
    all: intros [H|H]; [discriminate | try discriminate; try reflexivity].
  - close_trace. intros _; reflexivity.
Qed.

(** ** C2: an unparseable discovery reply yields the generic table *)
Theorem C2_discover_unparseable_generic (w : World) (json_loads : string -> option PyVal)
  (s : Service) (target_url : PyVal) (tr : list event) :
  (forall h p T, w_str w h (Generate p) = inr T -> json_loads (py_strip T) = None) ->
  fst (discover_form_selectors w json_loads s target_url tr) = inr get_generic_selectors.
Proof.
  intros Hgen.
  unfold discover_form_selectors, try_except, bind, page_unit, page_str, call_unit,
    call_str, no_page, raise, ret, json_loads_py, py_values.
  destruct (page s); [|reflexivity].
  repeat (answer_step; simpl); try reflexivity.
  match goal with H : w_str _ _ (Generate _) = inr _ |- _ => rewrite (Hgen _ _ _ H) end.
  reflexivity.
Qed.

Lemma C2_witness :
  (forall h p T, w_str (scripted_world "Sorry, I cannot help." "") h (Generate p) = inr T ->
                 Json.loads (py_strip T) = None) /\
  fst (discover_form_selectors (scripted_world "Sorry, I cannot help." "") Json.loads
         (tx_session PNone) (PStr "https://sos.tx.gov/") [])
  = inr get_generic_selectors.
Proof.
  assert (H : forall h p T, w_str (scripted_world "Sorry, I cannot help." "") h (Generate p) = inr T ->
                 Json.loads (py_strip T) = None)
    by (intros h p T E; simpl in E; inversion E; vm_compute; reflexivity).
  split; [exact H | apply (C2_discover_unparseable_generic _ _ _ _ _ H)].
Defined.

(** ** C1 *)

(** The reply has no ["name"], yet research returns it instead of the
    fallback configuration. *)
Lemma C1_counterexample :
  Json.loads (py_strip no_name_reply) =
    Some (PDict [("online_filing_available", PBool true);
                 ("login_url", PStr "https://sos.tx.gov/account")]) /\
  fst (research_state_filing_process (scripted_world no_name_reply "") Json.loads
         (tx_session PNone) [])
  = inr (PDict [("online_filing_available", PBool true);
                ("login_url", PStr "https://sos.tx.gov/account")]) /\
  fst (research_state_filing_process (scripted_world no_name_reply "") Json.loads
         (tx_session PNone) [])
  <> inr (get_fallback_config (tx_session PNone)).
Proof.
  split; [vm_compute; reflexivity|].
  split; [vm_compute; reflexivity|].
  vm_compute. intros H; inversion H.
Qed.

(** C1 (amended): once [LLMService()] and [generate] have returned a text,
    a text [json.loads] rejects gives the fallback configuration (never an
    exception), with online filing off, a base URL built from the code and
    notes saying research failed; a text that parses as a JSON object is
    returned as it is, with or without ["name"]. *)
Theorem C1_research_fallback (w : World) (json_loads : string -> option PyVal)
  (s : Service) (tr : list event) (T : string) :
  w_unit w tr LLMNew = None ->
  w_str w (tr ++ [Ev LLMNew true]) (Generate (research_prompt s)) = inr T ->
  (json_loads (py_strip T) = None ->
     fst (research_state_filing_process w json_loads s tr) = inr (get_fallback_config s)) /\
  (forall d, json_loads (py_strip T) = Some (PDict d) ->
     fst (research_state_filing_process w json_loads s tr) = inr (PDict d)) /\
  (exists d, get_fallback_config s = PDict d /\
     dict_get d "online_filing_available" = PBool false /\
     dict_get d "base_url" = PStr ("https://sos." ++ py_lower (state_code s) ++ ".gov/")%string /\
     dict_get d "notes" = PStr "Research failed - manual verification needed").
Proof.
  intros Hnew Hgen.
  unfold research_state_filing_process, try_except, bind, call_unit, call_str, raise, ret,
    json_loads_py, py_get_default.
  rewrite Hnew, Hgen. simpl.
  split; [intros H; rewrite H; reflexivity|].
  split; [intros d H; rewrite H; reflexivity|].
  eexists; split; [reflexivity|]. unfold dict_get; simpl. auto.
Qed.

Lemma C1_witness :
  w_unit (scripted_world "not json" "") [] LLMNew = None /\
  w_str (scripted_world "not json" "") ([] ++ [Ev LLMNew true])
    (Generate (research_prompt (tx_session PNone))) = inr "not json" /\
  fst (research_state_filing_process (scripted_world "not json" "") Json.loads
         (tx_session PNone) []) = inr (get_fallback_config (tx_session PNone)).
Proof.
  split; [reflexivity|]. split; [reflexivity|].
  apply (proj1 (C1_research_fallback (scripted_world "not json" "") Json.loads (tx_session PNone) []
           "not json" eq_refl eq_refl)).
  vm_compute. reflexivity.
Defined.


Lemma discover_events (w : World) (json_loads : string -> option PyVal)
  (s : Service) (target_url : PyVal) (tr : list event) :
  exists evs sm,
    discover_form_selectors w json_loads s target_url tr = (inr sm, tr ++ evs) /\
    forallb (fun e => discovery_act (ev_act e)) evs = true.
Proof.
  unfold discover_form_selectors, try_except, bind, page_unit, page_str, call_unit,
    call_str, no_page, raise, ret, json_loads_py, py_values.
  destruct (page s) eqn:Hp.
  - repeat (answer_step; simpl).
    all: try (destruct (json_loads _) as [v|]; [destruct v|]; simpl).
    all: close_trace; reflexivity.
  - close_trace. reflexivity.
Qed.

Lemma discover_current_events (w : World) (json_loads : string -> option PyVal)
  (s : Service) (tr : list event) r tr1 :
  discover_current w json_loads s tr = (r, tr1) ->
  exists evs, tr1 = tr ++ evs /\ forallb (fun e => discovery_act (ev_act e)) evs = true.
Proof.
  unfold discover_current, bind, page_str, call_str, no_page, raise.
  destruct (page s).
  - destruct (w_str w tr PageUrl) as [e|u]; intros H.
    + inversion H; subst. exists [Ev PageUrl false]; split; reflexivity.
    + destruct (discover_events w json_loads s (PStr u) (tr ++ [Ev PageUrl true]))
        as (evs & sm & Hd & Hf).
      rewrite Hd in H. inversion H; subst.
      exists (Ev PageUrl true :: evs). rewrite <- app_assoc. split; [reflexivity|exact Hf].
  - intros H; inversion H; subst. exists []. rewrite app_nil_r. split; reflexivity.
Qed.

(** ** C9: registry membership and session construction agree *)
Theorem C9_registry_agrees (code : string) (hl : bool) :
  (is_state_supported code = true <->
     exists s, StateFilingService_init code hl = inr s /\
               lookup_state US_STATES (state_code s) = Some (state_name s)) /\
  (is_state_supported code = false ->
     forall (w : World) (json_loads : string -> option PyVal) A (body : Service -> M A) tr,
       exists e, open_session w json_loads code hl body tr = (inl e, tr) /\
                 exn_cls e = ValueError) /\
  is_state_supported "ZZ" = false.
Proof.
  unfold is_state_supported, open_session, StateFilingService_init.
  destruct (lookup_state US_STATES (py_upper code)) as [name|] eqn:Hl.
  - split; [|split; [discriminate | reflexivity]].
    split; [intros _ | intros _; reflexivity].
    exists (mkService (py_upper code) name hl PNone false false false).
    simpl. split; [reflexivity | exact Hl].
  - split; [split; [discriminate | intros (s & H & _); discriminate]|].
    split; [|reflexivity].
    intros _ w json_loads A body tr. eexists; split; reflexivity.
Qed.

Lemma C9_witness :
  is_state_supported "ZZ" = false /\
  exists e, open_session (scripted_world "{}" "") Json.loads "ZZ" false
              (fun s => navigate_to_llc_filing (scripted_world "{}" "") s) []
            = (inl e, []) /\ exn_cls e = ValueError.
Proof.
  split; [reflexivity|].
  apply (proj1 (proj2 (C9_registry_agrees "ZZ" false)) eq_refl).
Defined.

(** ** C4 *)

(** With online filing off in the researched configuration, navigation
    still loads the form URL. *)
Lemma C4_counterexample :
  navigate_to_llc_filing (scripted_world "{}" "") (tx_session offline_tx_config) []
  = (inr true, [Ev (Goto (PStr "https://sos.tx.gov/llc") None) true;
                Ev (WaitForLoadState "networkidle" None) true]).
Proof. vm_compute. reflexivity. Qed.

(** [navigate_to_llc_filing] on an open session with a form URL. *)
Lemma navigate_loads_form_url (w : World) :
  forall s d tr,
     page s = true -> config s = PDict d ->
     py_truthy (dict_get d "llc_form_url") = true ->
     let url := dict_get d "llc_form_url" in
     let g := Ev (Goto url None) in
     let wt := WaitForLoadState "networkidle" None in
     navigate_to_llc_filing w s tr =
     match w_unit w tr (Goto url None) with
     | Some _ => (inr false, tr ++ [g false])
     | None => match w_unit w (tr ++ [g true]) wt with
               | Some _ => (inr false, tr ++ [g true; Ev wt false])
               | None => (inr true, tr ++ [g true; Ev wt true])
               end
     end.
Proof.
  intros s d tr Hp Hc Hu. cbv zeta.
  unfold navigate_to_llc_filing, try_except, bind, py_get, py_get_default, ret, raise,
    page_unit, call_unit.
  rewrite Hp, Hc.
  destruct d as [|kv d]; [discriminate Hu|].
  change (py_truthy (PDict (kv :: d))) with true. cbv beta iota.
  change (match assoc_get (kv :: d) "llc_form_url" with Some x => x | None => PNone end)
    with (dict_get (kv :: d) "llc_form_url").
  rewrite Hu. cbv beta iota delta [negb].
  destruct (w_unit w tr _); [reflexivity|].
  simpl.
  destruct (w_unit w (tr ++ _) _); repeat rewrite <- app_assoc; reflexivity.
Qed.

(** C4 (amended): login returns False without any call when online filing is
    not available; navigate does not look at that flag and returns False
    without any call only when there is no form URL, as in the fallback
    configuration. On an open session whose configuration has a form URL,
    navigate goes to that URL and waits for the network to settle, whatever
    the flag says: True when both return, False when one raises. *)
Theorem C4_offline_short_circuit (w : World) (json_loads : string -> option PyVal) :
  (forall s username password tr,
     (forall d, config s = PDict d -> py_truthy (dict_get d "online_filing_available") = false) ->
     login w json_loads s username password tr = (inr false, tr)) /\
  (forall s tr,
     (forall d, config s = PDict d -> py_truthy (dict_get d "llc_form_url") = false) ->
     navigate_to_llc_filing w s tr = (inr false, tr)) /\
  (forall s s0 username password tr,
     config s = get_fallback_config s0 ->
     login w json_loads s username password tr = (inr false, tr) /\
     navigate_to_llc_filing w s tr = (inr false, tr)) /\
  (forall s d tr,
     page s = true -> config s = PDict d ->
     py_truthy (dict_get d "llc_form_url") = true ->
     let url := dict_get d "llc_form_url" in
     let wt := WaitForLoadState "networkidle" None in
     navigate_to_llc_filing w s tr =
     match w_unit w tr (Goto url None) with
     | Some _ => (inr false, tr ++ [Ev (Goto url None) false])
     | None => match w_unit w (tr ++ [Ev (Goto url None) true]) wt with
               | Some _ => (inr false, tr ++ [Ev (Goto url None) true; Ev wt false])
               | None => (inr true, tr ++ [Ev (Goto url None) true; Ev wt true])
               end
     end).
Proof.
  assert (Hlogin : forall s username password tr,
     (forall d, config s = PDict d -> py_truthy (dict_get d "online_filing_available") = false) ->
     login w json_loads s username password tr = (inr false, tr)).
  { intros s username password tr Hoff.
    unfold login, try_except, bind, py_get, py_get_default, ret, raise.
    destruct (config s) as [| | | | l | d] eqn:Hc;
      [ .. | specialize (Hoff d eq_refl); destruct d as [|kv d];
             [ reflexivity
             | change (py_truthy (PDict (kv :: d))) with true; cbv beta iota;
               change (match assoc_get (kv :: d) "online_filing_available" with Some x => x | None => PNone end)
                 with (dict_get (kv :: d) "online_filing_available");
               rewrite Hoff; reflexivity ] ];
      simpl; repeat (match goal with |- context [if ?b then _ else _] => destruct b end; simpl);
      reflexivity. }
  assert (Hnav : forall s tr,
     (forall d, config s = PDict d -> py_truthy (dict_get d "llc_form_url") = false) ->
     navigate_to_llc_filing w s tr = (inr false, tr)).
  { intros s tr Hno.
    unfold navigate_to_llc_filing, try_except, bind, py_get, py_get_default, ret, raise.
    destruct (config s) as [| | | | l | d] eqn:Hc;
      [ .. | specialize (Hno d eq_refl); destruct d as [|kv d];
             [ reflexivity
             | change (py_truthy (PDict (kv :: d))) with true; cbv beta iota;
               change (match assoc_get (kv :: d) "llc_form_url" with Some x => x | None => PNone end)
                 with (dict_get (kv :: d) "llc_form_url");
               rewrite Hno; reflexivity ] ];
      simpl; repeat (match goal with |- context [if ?b then _ else _] => destruct b end; simpl);
      reflexivity. }
  split; [exact Hlogin|]. split; [exact Hnav|]. split.
  - intros s s0 username password tr Hc. split.
    + apply Hlogin. rewrite Hc. intros d Hd; inversion Hd; reflexivity.
    + apply Hnav. rewrite Hc. intros d Hd; inversion Hd; reflexivity.
  - apply navigate_loads_form_url.
Qed.

Lemma C4_witness :
  login (scripted_world "{}" "") Json.loads (tx_session offline_tx_config) "user" "secret" []
  = (inr false, []) /\
  navigate_to_llc_filing (scripted_world "{}" "") (tx_session offline_tx_config) []
  = (inr true, [Ev (Goto (PStr "https://sos.tx.gov/llc") None) true;
                Ev (WaitForLoadState "networkidle" None) true]).
Proof.
  split.
  - apply (proj1 (C4_offline_short_circuit (scripted_world "{}" "") Json.loads)).
    intros d Hd. inversion Hd. reflexivity.
  - refine (proj2 (proj2 (proj2 (C4_offline_short_circuit (scripted_world "{}" "") Json.loads)))
              (tx_session offline_tx_config) _ [] eq_refl eq_refl eq_refl).
Defined.

(** ** C6: session exit closes the browser, then stops the driver *)

Lemma aenter_handles (w : World) (json_loads : string -> option PyVal)
  (s : Service) tr s' tr1 :
  aenter w json_loads s tr = (inr s', tr1) -> browser s' = true /\ playwright s' = true.
Proof.
  unfold aenter, try_except, bind, call_unit, raise, ret.
  repeat (answer_step; simpl); try discriminate.
  match goal with |- context [research_state_filing_process ?w ?j ?s ?t] =>
    destruct (research_state_filing_process w j s t) as [[e|cfg] tr'] end;
  intros H; inversion H; subst; simpl; auto.
Qed.

Theorem C6_session_exit_order (w : World) (json_loads : string -> option PyVal) (A : Type)
  (s : Service) (body : Service -> M A) tr s' tr1 :
  aenter w json_loads s tr = (inr s', tr1) ->
  let '(rb, tr2) := body s' tr1 in
  exists r ok1 ok2,
    async_with w json_loads s body tr = (r, tr2 ++ [Ev BrowserClose ok1; Ev PlaywrightStop ok2]) /\
    (ok1 = true -> ok2 = true -> r = rb).
Proof.
  intros Hin.
  destruct (aenter_handles w json_loads s tr s' tr1 Hin) as [Hb Hp].
  unfold async_with, bind. rewrite Hin.
  unfold aexit, try_finally. rewrite Hb, Hp.
  unfold call_unit. cbv beta.
  destruct (body s' tr1) as [rb tr2].
  destruct (w_unit w tr2 BrowserClose) as [e1|];
    [destruct (w_unit w (tr2 ++ [Ev BrowserClose false]) PlaywrightStop) as [e2|]
    |destruct (w_unit w (tr2 ++ [Ev BrowserClose true]) PlaywrightStop) as [e2|]];
    cbv beta iota; do 3 eexists; rewrite <- app_assoc; simpl;
    (split; [reflexivity | intros; try discriminate; reflexivity]).
Qed.

Lemma C6_witness :
  exists s' tr1,
    aenter (scripted_world "not json" "") Json.loads tx_fresh [] = (inr s', tr1) /\
    let '(rb, tr2) := navigate_to_llc_filing (scripted_world "not json" "") s' tr1 in
    exists r ok1 ok2,
      async_with (scripted_world "not json" "") Json.loads tx_fresh
        (navigate_to_llc_filing (scripted_world "not json" ""))  []
      = (r, tr2 ++ [Ev BrowserClose ok1; Ev PlaywrightStop ok2]) /\
      (ok1 = true -> ok2 = true -> r = rb).
Proof.
  do 2 eexists. split.
  - vm_compute. reflexivity.
  - apply (C6_session_exit_order (scripted_world "not json" "") Json.loads bool tx_fresh
             (navigate_to_llc_filing (scripted_world "not json" "")) [] _ _).
    vm_compute. reflexivity.
Defined.

(** ** C7 *)

(** The error text is capitalised. *)
Lemma C7_counterexample :
  fst (submit_form (scripted_world "{}" "https://sos.tx.gov/llc") Json.loads
         (tx_session offline_tx_config) [])
  = inr (PDict [("success", PBool false); ("state", PStr "Texas");
                ("error", PStr "No submit button found")]) /\
  PStr "No submit button found" <> PStr "no submit button found".
Proof.
  split; [vm_compute; reflexivity | intros H; inversion H].
Qed.

(** C7 (amended): when the selectors discovered on the current page have
    no submit button, [submit_form] issues no further call and returns
    [{"success": False, "state": <name>, "error": "No submit button found"}]. *)
Theorem C7_submit_without_button (w : World) (json_loads : string -> option PyVal)
  (s : Service) tr tr1 d :
  discover_current w json_loads s tr = (inr (PDict d), tr1) ->
  py_truthy (dict_get d "submit_button") = false ->
  submit_form w json_loads s tr =
    (inr (PDict [("success", PBool false); ("state", PStr (state_name s));
                 ("error", PStr "No submit button found")]), tr1) /\
  (exists evs, tr1 = tr ++ evs /\
     forallb (fun e => match ev_act e with Click _ | Fill _ _ => false | _ => true end) evs = true).
Proof.
  intros Hd Hno. split.
  - unfold submit_form, try_except, bind. rewrite Hd.
    unfold py_get, py_get_default, ret. cbv beta iota.
    change (match assoc_get d "submit_button" with Some x => x | None => PNone end)
      with (dict_get d "submit_button").
    rewrite Hno. reflexivity.
  - destruct (discover_current_events w json_loads s tr _ _ Hd) as (evs & Htr & Hf).
    exists evs. split; [exact Htr|].
    rewrite forallb_forall in *. intros e He. specialize (Hf e He).
    destruct (ev_act e); try reflexivity; discriminate.
Qed.

Lemma C7_witness :
  submit_form (scripted_world "{}" "https://sos.tx.gov/llc") Json.loads
    (tx_session offline_tx_config) []
  = (inr (PDict [("success", PBool false); ("state", PStr "Texas");
                 ("error", PStr "No submit button found")]),
     snd (discover_current (scripted_world "{}" "https://sos.tx.gov/llc") Json.loads
            (tx_session offline_tx_config) [])).
Proof.
  apply (proj1 (C7_submit_without_button (scripted_world "{}" "https://sos.tx.gov/llc") Json.loads
                  (tx_session offline_tx_config) [] _ [] (ltac:(vm_compute; reflexivity))
                  eq_refl)).
Defined.

(** ** The fill loop *)

Ltac fill_field_close :=
  cbv beta iota;
  split;
  [ intros H; try discriminate; reflexivity
  | intros v H;
    first [ discriminate
          | injection H as <-; split;
            [ intros Hw; rewrite Hw; reflexivity
            | intros e Hw; rewrite Hw; reflexivity ] ] ].

Lemma fill_field_run (w : World) (s : Service) (dd : list (string * PyVal))
  (field_name : string) (selector : PyVal) (n : nat) (tr : list event) :
  page s = true ->
  (field_value_spec dd field_name = None ->
     fill_field w s (PDict dd) field_name selector n tr = (inr n, tr)) /\
  (forall v, field_value_spec dd field_name = Some v ->
     (w_unit w tr (Fill selector v) = None ->
        fill_field w s (PDict dd) field_name selector n tr =
          (inr (S n), tr ++ [Ev (Fill selector v) true])) /\
     (forall e, w_unit w tr (Fill selector v) = Some e ->
        fill_field w s (PDict dd) field_name selector n tr =
          (inl e, tr ++ [Ev (Fill selector v) false]))).
Proof.
  intros Hp.
  unfold fill_field, field_value_spec, data_field, field_is_set, py_get, py_get_default,
    py_getitem, page_unit, call_unit, bind, ret, raise, dict_get.
  rewrite Hp.
  destruct (String.eqb field_name "business_name") eqn:E1.
  { apply String.eqb_eq in E1; subst. simpl.
    destruct (assoc_get dd "business_name") as [v0|]; simpl.
    all: try (destruct (py_truthy v0)).
    all: fill_field_close. }
  destruct (String.eqb field_name "registered_agent_name") eqn:E2.
  { apply String.eqb_eq in E2; subst. simpl.
    destruct (assoc_get dd "registered_agent_name") as [v0|]; simpl.
    all: try (destruct (py_truthy v0)).
    all: fill_field_close. }
  destruct (String.eqb field_name "registered_agent_address") eqn:E3.
  { apply String.eqb_eq in E3; subst. simpl.
    destruct (assoc_get dd "registered_agent_address") as [v0|]; simpl.
    all: try (destruct (py_truthy v0)).
    all: fill_field_close. }
  simpl. destruct (String.eqb field_name "purpose") eqn:E4.
  all: fill_field_close.
Qed.

Lemma login_field_no_value (dd : list (string * PyVal)) (f : string) :
  login_field f = true -> field_value_spec dd f = None.
Proof.
  unfold login_field. intros H.
  repeat rewrite orb_true_iff in H.
  destruct H as [[H|H]|H]; apply String.eqb_eq in H; subst; reflexivity.
Qed.

(** The loop issues exactly the writes of [fill_writes_spec], and counts
    those that completed. *)
Lemma fill_loop_run (w : World) (s : Service) (dd : list (string * PyVal)) :
  page s = true ->
  forall d n tr, exists evs,
    fill_loop w s (PDict dd) d n tr = (inr (n + written_fields evs), tr ++ evs) /\
    map ev_act evs = map (fun '(sel, v) => Fill sel v) (fill_writes_spec dd d).
Proof.
  intros Hp d. induction d as [|[f sel] rest IH]; intros n tr.
  - exists []. rewrite app_nil_r, Nat.add_0_r. split; reflexivity.
  - simpl fill_loop. simpl fill_writes_spec.
    destruct (py_truthy sel) eqn:Hs; cbn [negb orb].
    + destruct (login_field f) eqn:Hl; cbn [negb orb].
      * rewrite (login_field_no_value dd f Hl). simpl. apply IH.
      * destruct (fill_field_run w s dd f sel n tr Hp) as [Hnone Hsome].
        destruct (field_value_spec dd f) as [v|] eqn:Hv.
        -- destruct (Hsome v eq_refl) as [Hok Hfail].
           unfold bind, try_except.
           destruct (w_unit w tr (Fill sel v)) as [e|] eqn:Hw.
           ++ rewrite (Hfail e eq_refl). unfold ret, any_exception. cbv beta iota.
              destruct (IH n (tr ++ [Ev (Fill sel v) false])) as (evs & Hr & Hm).
              exists (Ev (Fill sel v) false :: evs). rewrite Hr, <- app_assoc.
              split; [reflexivity | simpl; f_equal; exact Hm].
           ++ rewrite (Hok eq_refl). cbv beta iota.
              destruct (IH (S n) (tr ++ [Ev (Fill sel v) true])) as (evs & Hr & Hm).
              exists (Ev (Fill sel v) true :: evs). rewrite Hr, <- app_assoc.
              unfold written_fields; simpl. rewrite Nat.add_succ_r.
              split; [reflexivity | f_equal; exact Hm].
        -- unfold bind, try_except. rewrite (Hnone eq_refl). cbv beta iota. apply IH.
    + simpl. apply IH.
Qed.

(** [fill_llc_formation] in terms of the discovered selectors. *)
Lemma fill_llc_formation_run (w : World) (json_loads : string -> option PyVal)
  (s : Service) (dd : list (string * PyVal)) tr tr1 d :
  discover_current w json_loads s tr = (inr (PDict d), tr1) ->
  exists evs,
    fill_llc_formation w json_loads s (PDict dd) tr =
      (inr (Nat.ltb 0 (written_fields evs)), tr1 ++ evs) /\
    map ev_act evs = map (fun '(sel, v) => Fill sel v) (fill_writes_spec dd d).
Proof.
  intros Hd.
  assert (Hp : page s = true).
  { revert Hd. unfold discover_current, page_str, bind, no_page, raise.
    destruct (page s); [reflexivity | discriminate]. }
  destruct (fill_loop_run w s dd Hp d 0 tr1) as (evs & Hr & Hm).
  exists evs. split; [|exact Hm].
  unfold fill_llc_formation, try_except, bind. rewrite Hd. simpl py_items.
  unfold ret. rewrite Hr. reflexivity.
Qed.

Lemma written_fields_app (a b : list event) :
  written_fields (a ++ b) = written_fields a + written_fields b.
Proof. unfold written_fields. rewrite filter_app, length_app. reflexivity. Qed.

Lemma written_fields_discovery (evs : list event) :
  forallb (fun e => discovery_act (ev_act e)) evs = true -> written_fields evs = 0.
Proof.
  induction evs as [|[a ok] evs IH]; [reflexivity|].
  simpl. intros H. apply andb_true_iff in H as [Ha Hr].
  unfold written_fields in *. simpl.
  destruct a; try discriminate; destruct ok; simpl; apply IH; exact Hr.
Qed.

Lemma field_value_spec_irrelevant (dd : list (string * PyVal)) (k : string) :
  relevant_field k = false -> field_value_spec dd k = None.
Proof.
  unfold relevant_field, field_value_spec. intros H.
  apply orb_false_iff in H as [H1 H2]. rewrite H1, H2. reflexivity.
Qed.

Lemma fill_loop_skip (w : World) (s : Service) (dd : list (string * PyVal)) :
  page s = true ->
  forall d n tr, no_relevant_selector d = true ->
    fill_loop w s (PDict dd) d n tr = (inr n, tr).
Proof.
  intros Hp d. induction d as [|[k v] rest IH]; intros n tr H; [reflexivity|].
  simpl in H. apply andb_true_iff in H as [Hk Hr].
  simpl fill_loop.
  destruct (py_truthy v) eqn:Hv; cbn [negb orb] in *; [|apply IH; exact Hr].
  destruct (login_field k) eqn:Hl; [apply IH; exact Hr|].
  destruct (relevant_field k) eqn:Hrel; [discriminate|].
  destruct (fill_field_run w s dd k v n tr Hp) as [Hnone _].
  unfold bind, try_except. rewrite (Hnone (field_value_spec_irrelevant dd k Hrel)).
  cbv beta iota. apply IH. exact Hr.
Qed.

Lemma fill_loop_app (w : World) (s : Service) (data : PyVal) l1 l2 n tr :
  fill_loop w s data (l1 ++ l2) n tr = bind (fill_loop w s data l1 n) (fun m => fill_loop w s data l2 m) tr.
Proof.
  revert n tr. induction l1 as [|[k v] rest IH]; intros n tr; [reflexivity|].
  simpl. destruct (negb (py_truthy v) || login_field k); [apply IH|].
  unfold bind. cbv beta.
  destruct (try_except (fill_field w s data k v n) any_exception (fun _ => ret n) tr)
    as [[e|m] tr']; [reflexivity|]. rewrite IH. reflexivity.
Qed.

Lemma discover_current_page (w : World) (json_loads : string -> option PyVal)
  (s : Service) tr sm tr1 :
  discover_current w json_loads s tr = (inr sm, tr1) -> page s = true.
Proof.
  unfold discover_current, page_str, bind, no_page, raise.
  destruct (page s); [reflexivity | discriminate].
Qed.

(** ** C3: the fill stage succeeds exactly when a field was written *)
Theorem C3_fill_success_iff_written (w : World) (json_loads : string -> option PyVal) :
  (forall s dd tr, exists evs r,
     fill_llc_formation w json_loads s (PDict dd) tr = (inr r, tr ++ evs) /\
     (r = true <-> written_fields evs <> 0)) /\
  (forall s dd tr tr1 l1 l2 sel,
     discover_current w json_loads s tr =
       (inr (PDict (l1 ++ [("business_name", sel)] ++ l2)), tr1) ->
     py_truthy sel = true ->
     py_truthy (dict_get dd "business_name") = true ->
     no_relevant_selector (l1 ++ l2) = true ->
     w_unit w tr1 (Fill sel (dict_get dd "business_name")) = None ->
     fill_llc_formation w json_loads s (PDict dd) tr =
       (inr true, tr1 ++ [Ev (Fill sel (dict_get dd "business_name")) true])) /\
  (forall s dd tr tr1 d,
     discover_current w json_loads s tr = (inr (PDict d), tr1) ->
     no_relevant_selector d = true ->
     fill_llc_formation w json_loads s (PDict dd) tr = (inr false, tr1)).
Proof.
  split; [|split].
  - intros s dd tr.
    destruct (discover_current w json_loads s tr) as [r1 tr1] eqn:Hd.
    destruct (discover_current_events w json_loads s tr r1 tr1 Hd) as (evs1 & Htr & Hf).
    pose proof (written_fields_discovery evs1 Hf) as H0. subst tr1.
    destruct r1 as [e|sels].
    + exists evs1, false. unfold fill_llc_formation, try_except, bind. rewrite Hd.
      split; [reflexivity|]. rewrite H0. split; [discriminate | intros H; contradiction].
    + destruct sels as [| | | | l | d];
        try (exists evs1, false; unfold fill_llc_formation, try_except, bind; rewrite Hd;
             split; [reflexivity|]; rewrite H0; split; [discriminate | intros H; contradiction]).
      destruct (fill_llc_formation_run w json_loads s dd tr _ d Hd) as (evs2 & Hr & _).
      exists (evs1 ++ evs2), (Nat.ltb 0 (written_fields evs2)).
      rewrite Hr, <- app_assoc. split; [reflexivity|].
      rewrite written_fields_app, H0. simpl.
      destruct (written_fields evs2) as [|k]; simpl; split; intros Hx.
      * discriminate.
      * exfalso; apply Hx; reflexivity.
      * discriminate.
      * reflexivity.
  - intros s dd tr tr1 l1 l2 sel Hd Hs Hname Hno Hw.
    pose proof (discover_current_page _ _ _ _ _ _ Hd) as Hp.
    unfold no_relevant_selector in Hno. rewrite forallb_app in Hno.
    apply andb_true_iff in Hno as [Hno1 Hno2].
    unfold fill_llc_formation, try_except, bind. rewrite Hd. simpl py_items. unfold ret.
    rewrite fill_loop_app. unfold bind.
    rewrite (fill_loop_skip w s dd Hp l1 0 tr1 Hno1).
    simpl fill_loop. rewrite Hs. cbn [negb orb].
    change (login_field "business_name") with false. cbv iota.
    destruct (fill_field_run w s dd "business_name" sel 0 tr1 Hp) as [_ Hsome].
    assert (Hv : field_value_spec dd "business_name" = Some (dict_get dd "business_name"))
      by (unfold field_value_spec; simpl; rewrite Hname; reflexivity).
    destruct (Hsome _ Hv) as [Hok _].
    unfold bind, try_except. rewrite (Hok Hw). cbv beta iota. unfold ret.
    rewrite (fill_loop_skip w s dd Hp l2 1 _ Hno2). reflexivity.
  - intros s dd tr tr1 d Hd Hno.
    pose proof (discover_current_page _ _ _ _ _ _ Hd) as Hp.
    unfold fill_llc_formation, try_except, bind. rewrite Hd. simpl py_items. unfold ret.
    rewrite (fill_loop_skip w s dd Hp d 0 tr1 Hno). reflexivity.
Qed.

Lemma C3_witness :
  fill_llc_formation (scripted_world business_name_only_reply "https://sos.tx.gov/llc") Json.loads
    (tx_session offline_tx_config) (PDict [("business_name", PStr "Acme LLC")]) []
  = (inr true,
     snd (discover_current (scripted_world business_name_only_reply "https://sos.tx.gov/llc")
            Json.loads (tx_session offline_tx_config) [])
     ++ [Ev (Fill (PStr "#entity") (PStr "Acme LLC")) true]).
Proof.
  apply (proj1 (proj2 (C3_fill_success_iff_written
                         (scripted_world business_name_only_reply "https://sos.tx.gov/llc")
                         Json.loads))
           (tx_session offline_tx_config) [("business_name", PStr "Acme LLC")] [] _ [] []
           (PStr "#entity")).
  - vm_compute. reflexivity.
  - reflexivity.
  - reflexivity.
  - reflexivity.
  - reflexivity.
Defined.

(** ** C5 *)

(** The data has no purpose, the page has a purpose field: the default
    text is written there. *)
Lemma C5_counterexample :
  assoc_get [("business_name", PStr "Acme LLC")] "purpose" = None /\
  fill_llc_formation (scripted_world purpose_only_reply "https://sos.tx.gov/llc") Json.loads
    (tx_session offline_tx_config) (PDict [("business_name", PStr "Acme LLC")]) []
  = (inr true,
     snd (discover_current (scripted_world purpose_only_reply "https://sos.tx.gov/llc")
            Json.loads (tx_session offline_tx_config) [])
     ++ [Ev (Fill (PStr "#purpose") (PStr "All lawful purposes")) true]).
Proof. split; vm_compute; reflexivity. Qed.

(** C5 (amended): the fill stage writes, in the order of the discovered
    selector map, exactly the writes [fill_writes_spec] lists: a field with
    an absent selector is skipped; business_name, registered_agent_name and
    registered_agent_address get the data's value and are skipped when it is
    absent or empty; purpose gets the data's purpose, or "All lawful
    purposes" when the data has no purpose key. *)
Theorem C5_fill_writes (w : World) (json_loads : string -> option PyVal)
  (s : Service) (dd : list (string * PyVal)) tr tr1 d :
  discover_current w json_loads s tr = (inr (PDict d), tr1) ->
  exists evs r,
    fill_llc_formation w json_loads s (PDict dd) tr = (inr r, tr1 ++ evs) /\
    map ev_act evs = map (fun '(sel, v) => Fill sel v) (fill_writes_spec dd d).
Proof.
  intros Hd.
  destruct (fill_llc_formation_run w json_loads s dd tr tr1 d Hd) as (evs & Hr & Hm).
  exists evs, (Nat.ltb 0 (written_fields evs)). split; assumption.
Qed.

Lemma C5_witness :
  exists evs r,
    fill_llc_formation (scripted_world purpose_only_reply "https://sos.tx.gov/llc") Json.loads
      (tx_session offline_tx_config) (PDict [("business_name", PStr "Acme LLC")]) []
    = (inr r, snd (discover_current (scripted_world purpose_only_reply "https://sos.tx.gov/llc")
                     Json.loads (tx_session offline_tx_config) []) ++ evs) /\
    map ev_act evs = map (fun '(sel, v) => Fill sel v)
                       (fill_writes_spec [("business_name", PStr "Acme LLC")]
                          [("purpose", PStr "#purpose")]).
Proof.
  apply (C5_fill_writes (scripted_world purpose_only_reply "https://sos.tx.gov/llc") Json.loads
           (tx_session offline_tx_config) [("business_name", PStr "Acme LLC")] [] _
           [("purpose", PStr "#purpose")]).
  vm_compute. reflexivity.
Defined.

Lemma trace_extends_nil (tr evs : list event) : tr = tr ++ evs -> evs = [].
Proof.
  intros H. apply (f_equal (@length event)) in H. rewrite length_app in H.
  destruct evs; [reflexivity | simpl in H; lia].
Qed.

Lemma discovery_no_plain_wait (evs : list event) (st : string) (ok : bool) :
  forallb (fun e => discovery_act (ev_act e)) evs = true ->
  ~ In (Ev (WaitForLoadState st None) ok) evs.
Proof.
  intros Hf Hin. rewrite forallb_forall in Hf. apply Hf in Hin. discriminate.
Qed.

Ltac login_split H :=
  repeat (cbv beta iota delta [negb andb orb] in H;
    match type of H with
    | context [discover_form_selectors ?w ?j ?s ?u ?t] =>
        let Hd := fresh "Hd" in let Hf := fresh "Hf" in
        destruct (discover_events w j s u t) as (? & ? & Hd & Hf); rewrite Hd in H
    | context [config ?s] => destruct (config s)
    | context [py_type_name ?v] => is_var v; destruct v
    | context [page ?s] => destruct (page s)
    | context [py_truthy ?x] => destruct (py_truthy x)
    | context [assoc_get ?d ?k] => destruct (assoc_get d k)
    | context [w_unit ?w ?h ?a] => destruct (w_unit w h a) eqn:?
    | context [w_str ?w ?h ?a] => destruct (w_str w h a) eqn:?
    end).

Ltac login_close H Hin Hurl :=
  let Htr := fresh "Htr" in let Hr := fresh "Hr" in
  pose proof (f_equal snd H) as Htr; pose proof (f_equal fst H) as Hr;
  cbn [fst snd] in Htr, Hr; rewrite <- Hr;
  repeat rewrite <- app_assoc in Htr;
  try (first [ apply trace_extends_nil in Htr | apply app_inv_head in Htr ]; subst);
  repeat rewrite in_app_iff in Hin; simpl in Hin;
  repeat match goal with
         | Hx : _ \/ _ |- _ => destruct Hx as [Hx|Hx]
         end;
  try contradiction;
  try discriminate;
  try (exfalso; eapply discovery_no_plain_wait; eassumption);
  try (rewrite Hurl in *; congruence).

(** ** C8

    The page URL is lower-cased before the substring test: a URL with an
    upper-case "Login" and no "login" or "error" in it reports failure. *)
Lemma C8_counterexample :
  py_contains "https://sos.tx.gov/Login" "login" = false /\
  py_contains "https://sos.tx.gov/Login" "error" = false /\
  In (Ev (WaitForLoadState "networkidle" None) true)
     (snd (login (login_world "https://sos.tx.gov/Login") Json.loads
             (tx_session online_tx_config) "user" "secret" [])) /\
  fst (login (login_world "https://sos.tx.gov/Login") Json.loads
         (tx_session online_tx_config) "user" "secret" []) = inr false.
Proof.
  split; [reflexivity|]. split; [reflexivity|]. split.
  - vm_compute. repeat (first [left; reflexivity | right]).
  - vm_compute. reflexivity.
Qed.

Lemma discover_calls (w : World) (json_loads : string -> option PyVal)
  (s : Service) (target_url : PyVal) (tr : list event) :
  exists evs sm,
    discover_form_selectors w json_loads s target_url tr = (inr sm, tr ++ evs) /\
    forallb (fun e => discover_call_act (ev_act e)) evs = true.
Proof.
  unfold discover_form_selectors, try_except, bind, page_unit, page_str, call_unit,
    call_str, no_page, raise, ret, json_loads_py, py_values.
  destruct (page s) eqn:Hp.
  - repeat (answer_step; simpl).
    all: try (destruct (json_loads _) as [v|]; [destruct v|]; simpl).
    all: close_trace; reflexivity.
  - close_trace. reflexivity.
Qed.

Lemma discover_calls_no_stage_call (evs : list event) (a : act) (ok : bool) :
  forallb (fun e => discover_call_act (ev_act e)) evs = true ->
  discover_call_act a = false -> ~ In (Ev a ok) evs.
Proof.
  intros Hf Ha Hin. rewrite forallb_forall in Hf. apply Hf in Hin. simpl in Hin. congruence.
Qed.

Ltac login_split_calls H :=
  repeat (cbv beta iota delta [negb andb orb] in H;
    match type of H with
    | context [discover_form_selectors ?w ?j ?s ?u ?t] =>
        let Hd := fresh "Hd" in let Hf := fresh "Hf" in
        destruct (discover_calls w j s u t) as (? & ? & Hd & Hf); rewrite Hd in H
    | context [config ?s] => destruct (config s)
    | context [py_type_name ?v] => is_var v; destruct v
    | context [page ?s] => destruct (page s)
    | context [py_truthy ?x] => destruct (py_truthy x)
    | context [assoc_get ?d ?k] => destruct (assoc_get d k)
    | context [w_unit ?w ?h ?a] => destruct (w_unit w h a) eqn:?
    | context [w_str ?w ?h ?a] => destruct (w_str w h a) eqn:?
    end).

Lemma login_failed_step_false (w : World) (json_loads : string -> option PyVal) (s : Service)
  (username password : string) (tr : list event) :
  forall r evs,
    login w json_loads s username password tr = (r, tr ++ evs) ->
    In (Ev (WaitForLoadState "networkidle" None) false) evs \/ In (Ev PageUrl false) evs ->
    r = inr false.
Proof.
  intros r evs Hrun Hin.
  unfold login, try_except, bind, py_get, py_get_default, py_getitem, page_unit, page_str,
    call_unit, call_str, no_page, raise, ret, any_exception in Hrun.
  login_split_calls Hrun.
  all: let Htr := fresh "Htr" in let Hr := fresh "Hr" in
       pose proof (f_equal snd Hrun) as Htr; pose proof (f_equal fst Hrun) as Hr;
       cbn [fst snd] in Htr, Hr; rewrite <- Hr;
       repeat rewrite <- app_assoc in Htr;
       try (first [ apply trace_extends_nil in Htr | apply app_inv_head in Htr ]; subst);
       repeat rewrite in_app_iff in Hin; simpl in Hin.
  all: repeat match goal with
         | Hx : _ \/ _ |- _ => destruct Hx as [Hx|Hx]
         end.
  all: try reflexivity.
  all: try contradiction.
  all: try discriminate.
  all: exfalso; eapply discover_calls_no_stage_call; try eassumption; reflexivity.
Qed.

Lemma login_url_verdict (w : World) (json_loads : string -> option PyVal) (s : Service)
  (username password : string) (tr : list event) (r : exn + bool) (evs : list event) (url : string) :
  (forall h, w_str w h PageUrl = inr url) ->
  login w json_loads s username password tr = (r, tr ++ evs) ->
  In (Ev (WaitForLoadState "networkidle" None) true) evs ->
  r = inr (negb (py_contains (py_lower url) "login" || py_contains (py_lower url) "error")).
Proof.
  intros Hurl Hrun Hin.
  unfold login, try_except, bind, py_get, py_get_default, py_getitem, page_unit, page_str,
    call_unit, call_str, no_page, raise, ret, any_exception in Hrun.
  login_split Hrun.
  all: login_close Hrun Hin Hurl.
  match goal with
  | Hs : w_str w _ PageUrl = inr ?u |- _ => rewrite Hurl in Hs; injection Hs as <-
  end.
  reflexivity.
Qed.

(** C8 (amended): once the login stage has clicked the login button and
    waited for the network to settle (the run's events include that
    completed wait), and the page reports URL [url], it returns True exactly
    when the lower-cased [url] contains neither "login" nor "error". When
    that wait or the read of the page URL raises, it returns False. *)
Theorem C8_login_url_check (w : World) (json_loads : string -> option PyVal) (s : Service)
  (username password : string) (tr : list event) :
  (forall r evs url,
     (forall h, w_str w h PageUrl = inr url) ->
     login w json_loads s username password tr = (r, tr ++ evs) ->
     In (Ev (WaitForLoadState "networkidle" None) true) evs ->
     r = inr (negb (py_contains (py_lower url) "login" || py_contains (py_lower url) "error"))) /\
  (forall r evs,
     login w json_loads s username password tr = (r, tr ++ evs) ->
     In (Ev (WaitForLoadState "networkidle" None) false) evs \/ In (Ev PageUrl false) evs ->
     r = inr false).
Proof.
  split.
  - intros r evs url. apply login_url_verdict.
  - apply login_failed_step_false.
Qed.

Lemma C8_witness :
  fst (login (login_world "https://sos.tx.gov/dashboard") Json.loads
         (tx_session online_tx_config) "user" "secret" [])
  = inr (negb (py_contains (py_lower "https://sos.tx.gov/dashboard") "login"
               || py_contains (py_lower "https://sos.tx.gov/dashboard") "error")) /\
  fst (login wait_timeout_world Json.loads (tx_session online_tx_config) "user" "secret" [])
  = inr false.
Proof.
  split.
  - apply (proj1 (C8_login_url_check (login_world "https://sos.tx.gov/dashboard") Json.loads
           (tx_session online_tx_config) "user" "secret" [])
           (fst (login (login_world "https://sos.tx.gov/dashboard") Json.loads
                   (tx_session online_tx_config) "user" "secret" []))
           (snd (login (login_world "https://sos.tx.gov/dashboard") Json.loads
                   (tx_session online_tx_config) "user" "secret" []))
           "https://sos.tx.gov/dashboard").
    + intros h. reflexivity.
    + vm_compute. reflexivity.
    + vm_compute. repeat (first [left; reflexivity | right]).
  - apply (proj2 (C8_login_url_check wait_timeout_world Json.loads (tx_session online_tx_config) "user" "secret" [])
           (fst (login wait_timeout_world Json.loads (tx_session online_tx_config) "user" "secret" []))
           (snd (login wait_timeout_world Json.loads (tx_session online_tx_config) "user" "secret" []))).
    + vm_compute. reflexivity.
    + left. vm_compute. repeat (first [left; reflexivity | right]).
Defined.


(** ** [nlu_service.py]: state normalisation *)

Lemma lookup_state_in (tbl : list (string * string)) (k v : string) :
  lookup_state tbl k = Some v -> In (k, v) tbl.
Proof.
  induction tbl as [|[k' v'] rest IH]; simpl; [discriminate|].
  destruct (String.eqb_spec k k') as [->|_]; [intros H; injection H as <-; left; reflexivity|].
  intros H; right; apply IH, H.
Qed.

Lemma normalize_state_sound (text full code : string) :
  normalize_state text = Some (full, code) ->
  exists name, In (name, code) NLU_US_STATES /\ full = py_title name.
Proof.
  unfold normalize_state. destruct (String.eqb text ""); [discriminate|]. cbv zeta.
  destruct (Nat.eqb _ 2 && existsb _ _) eqn:E.
  - apply andb_true_iff in E as [_ Hex].
    destruct (find _ NLU_US_STATES) as [[name c]|] eqn:Hf.
    + apply find_some in Hf as [Hin Heq]. simpl in Heq. apply String.eqb_eq in Heq. subst c.
      intros H. injection H as <- <-. exists name. split; [exact Hin | reflexivity].
    + exfalso. apply existsb_exists in Hex as [[n c] [Hin Hc]].
      pose proof (find_none _ _ Hf (n, c) Hin) as Hc'. simpl in Hc, Hc'. congruence.
  - destruct (lookup_state NLU_US_STATES _) as [c|] eqn:Hl; [|discriminate].
    intros H. injection H as <- <-. eexists. split; [apply lookup_state_in; exact Hl | reflexivity].
Qed.

Lemma nlu_table_supported :
  forallb (fun '(_, c) => Bool.eqb (is_state_supported c) (negb (String.eqb c "DC"))) NLU_US_STATES
  = true.
Proof. vm_compute. reflexivity. Qed.

Lemma nlu_code_supported (name code : string) :
  In (name, code) NLU_US_STATES -> (is_state_supported code = true <-> code <> "DC").
Proof.
  intros Hin. pose proof (proj1 (forallb_forall _ _) nlu_table_supported _ Hin) as H.
  simpl in H. apply Bool.eqb_prop in H. rewrite H.
  destruct (String.eqb_spec code "DC"); simpl; split; intros; congruence.
Qed.


Lemma nlu_table_round_trip_check :
  forallb (fun '(name, code) =>
             forallb (fun input =>
                        match normalize_state input with
                        | Some (f, c) => String.eqb f (py_title name) && String.eqb c code
                        | None => false
                        end)
                     [code; name; py_upper name; py_lower code; (" " ++ py_upper name ++ nl)%string])
          NLU_US_STATES = true.
Proof. vm_compute. reflexivity. Qed.

(** ** [nlu_service.py]: the entity loop *)

Ltac label_cases l :=
  destruct (String.eqb_spec l "BUSINESS_TYPE"); [subst l|];
  [| destruct (String.eqb_spec l "ORG"); [subst l|];
     [| destruct (String.eqb_spec l "PERSON"); [subst l|];
        [| destruct (String.eqb_spec l "GPE"); [subst l|];
           [| destruct (String.eqb_spec l "LOC"); [subst l|]]]]];
  repeat match goal with
         | H : ?x <> ?c |- _ => try rewrite (proj2 (String.eqb_neq x c) H); clear H
         end.

Ltac ent_finish :=
  cbn -[py_strip py_lower py_contains normalize_state business_type_of existsb];
  repeat match goal with
         | |- context [is_none ?v] => destruct (is_none v)
         | |- context [existsb ?f ?l] => destruct (existsb f l)
         | |- context [normalize_state ?x] => destruct (normalize_state x) as [[? ?]|]
         end;
  cbn -[py_strip py_lower py_contains normalize_state business_type_of existsb]; reflexivity.

Lemma step_owner (r : Entities) (l t : string) :
  e_owner_name (ent_step r (l, t)) =
  if String.eqb l "PERSON" && is_none (e_owner_name r) then PStr (py_strip t) else e_owner_name r.
Proof. unfold ent_step. label_cases l; ent_finish. Qed.

Lemma step_state (r : Entities) (l t : string) :
  (e_state (ent_step r (l, t)), e_state_code (ent_step r (l, t))) =
  if (String.eqb l "GPE" || String.eqb l "LOC") && is_none (e_state r) then
    match normalize_state (py_strip t) with
    | Some (full, code) => (PStr full, PStr code)
    | None => (e_state r, e_state_code r)
    end
  else (e_state r, e_state_code r).
Proof. unfold ent_step. label_cases l; ent_finish. Qed.

Lemma step_business_type (r : Entities) (l t : string) :
  e_business_type (ent_step r (l, t)) =
  if String.eqb l "BUSINESS_TYPE" ||
     (String.eqb l "ORG" && is_none (e_business_type r) &&
      existsb (fun k => py_contains (py_lower (py_strip t)) k) ["llc"; "corporation"; "inc"; "corp"])
  then business_type_of (py_strip t) else e_business_type r.
Proof. unfold ent_step. label_cases l; ent_finish. Qed.

Lemma step_keeps (r : Entities) (e : string * string) :
  e_ein (ent_step r e) = e_ein r /\ e_email (ent_step r e) = e_email r /\
  e_phone (ent_step r e) = e_phone r /\
  e_raw_entities (ent_step r e) = e_raw_entities r ++ [raw_record e].
Proof. destruct e as [l t]. unfold ent_step. label_cases l; (split; [|split; [|split]]); ent_finish. Qed.

Lemma regex_pass_keeps (rs : string -> string -> option string) (text : string) (r : Entities) :
  e_business_type (regex_pass rs text r) = e_business_type r /\
  e_business_name (regex_pass rs text r) = e_business_name r /\
  e_owner_name (regex_pass rs text r) = e_owner_name r /\
  e_state (regex_pass rs text r) = e_state r /\
  e_state_code (regex_pass rs text r) = e_state_code r /\
  e_raw_entities (regex_pass rs text r) = e_raw_entities r.
Proof.
  unfold regex_pass.
  destruct (is_none (e_ein r)); cbn -[is_none];
  [destruct (is_none (e_phone r)) | destruct (is_none (e_phone r))]; cbn -[is_none];
  repeat match goal with |- context [if ?b then _ else _] => destruct b end;
  repeat split.
Qed.

Lemma fold_owner (ents : list (string * string)) (r : Entities) :
  is_none (e_owner_name r) = true ->
  e_owner_name (fold_left ent_step ents r) =
  match find (has_label "PERSON") ents with
  | Some e => PStr (py_strip (snd e))
  | None => e_owner_name r
  end.
Proof.
  revert r. induction ents as [|[l t] rest IH]; intros r Hn; [reflexivity|].
  cbn [fold_left find]. unfold has_label at 1. cbn [fst snd].
  pose proof (step_owner r l t) as Hs. rewrite Hn, andb_true_r in Hs.
  destruct (String.eqb l "PERSON").
  - clear IH. assert (Hk : forall rest1 r', e_owner_name r' = PStr (py_strip t) ->
                         e_owner_name (fold_left ent_step rest1 r') = PStr (py_strip t)).
    { intros rest1; induction rest1 as [|[l' t'] rest' IH']; intros r' H'; [exact H'|].
      cbn [fold_left]. apply IH'. rewrite step_owner, H'. simpl. rewrite andb_false_r. reflexivity. }
    apply Hk. exact Hs.
  - rewrite IH; rewrite Hs; [reflexivity | exact Hn].
Qed.

Lemma fold_state (ents : list (string * string)) (r : Entities) :
  is_none (e_state r) = true ->
  (e_state (fold_left ent_step ents r), e_state_code (fold_left ent_step ents r)) =
  match find place_entity ents with
  | Some e => match normalize_state (py_strip (snd e)) with
              | Some (full, code) => (PStr full, PStr code)
              | None => (e_state r, e_state_code r)
              end
  | None => (e_state r, e_state_code r)
  end.
Proof.
  revert r. induction ents as [|[l t] rest IH]; intros r Hn; [reflexivity|].
  change (fold_left ent_step ((l, t) :: rest) r) with (fold_left ent_step rest (ent_step r (l, t))).
  change (find place_entity ((l, t) :: rest)) with
    (if (String.eqb l "GPE" || String.eqb l "LOC") &&
        match normalize_state (py_strip t) with Some _ => true | None => false end
     then Some (l, t) else find place_entity rest).
  pose proof (step_state r l t) as Hs. rewrite Hn, andb_true_r in Hs.
  destruct (String.eqb l "GPE" || String.eqb l "LOC").
  - destruct (normalize_state (py_strip t)) as [[full code]|] eqn:Hnorm;
      cbn [andb fst snd]; rewrite ?Hnorm.
    + clear IH. assert (Hk : forall rest1 r', (e_state r', e_state_code r') = (PStr full, PStr code) ->
                (e_state (fold_left ent_step rest1 r'), e_state_code (fold_left ent_step rest1 r'))
                = (PStr full, PStr code)).
      { intros rest1; induction rest1 as [|[l' t'] rest' IH']; intros r' H'; [exact H'|].
        change (fold_left ent_step ((l', t') :: rest') r') with (fold_left ent_step rest' (ent_step r' (l', t'))).
        apply IH'. pose proof (step_state r' l' t') as Hs'. injection H' as H1 H2.
        rewrite H1, H2, andb_false_r in Hs'. exact Hs'. }
      apply Hk. exact Hs.
    + rewrite IH; [rewrite Hs; reflexivity|].
    change (e_state (ent_step r (l, t))) with (fst (e_state (ent_step r (l, t)), e_state_code (ent_step r (l, t)))).
    rewrite Hs. exact Hn.
  - rewrite IH; [rewrite Hs; reflexivity|].
    change (e_state (ent_step r (l, t))) with (fst (e_state (ent_step r (l, t)), e_state_code (ent_step r (l, t)))).
    rewrite Hs. exact Hn.
Qed.

Lemma fold_keeps (ents : list (string * string)) (r : Entities) :
  e_ein (fold_left ent_step ents r) = e_ein r /\
  e_email (fold_left ent_step ents r) = e_email r /\
  e_phone (fold_left ent_step ents r) = e_phone r /\
  e_raw_entities (fold_left ent_step ents r) = e_raw_entities r ++ map raw_record ents.
Proof.
  revert r. induction ents as [|e rest IH]; intros r.
  - simpl. rewrite app_nil_r. repeat split.
  - simpl. destruct (IH (ent_step r e)) as (H1 & H2 & H3 & H4).
    destruct (step_keeps r e) as (K1 & K2 & K3 & K4).
    rewrite H1, H2, H3, H4, K1, K2, K3, K4, <- app_assoc. repeat split.
Qed.

Lemma fold_business_type_last (pre post : list (string * string)) (t : string) (r : Entities) :
  forallb (fun e => negb (has_label "BUSINESS_TYPE" e)) post = true ->
  e_business_type (fold_left ent_step (pre ++ [("BUSINESS_TYPE", t)] ++ post) r) =
  business_type_of (py_strip t).
Proof.
  intros Hpost. rewrite fold_left_app.
  change (fold_left ent_step ([("BUSINESS_TYPE", t)] ++ post) (fold_left ent_step pre r)) with
    (fold_left ent_step post (ent_step (fold_left ent_step pre r) ("BUSINESS_TYPE", t))).
  assert (Hbt : e_business_type (ent_step (fold_left ent_step pre r) ("BUSINESS_TYPE", t))
                = business_type_of (py_strip t)) by (rewrite step_business_type; reflexivity).
  revert Hbt. generalize (ent_step (fold_left ent_step pre r) ("BUSINESS_TYPE", t)) as r'.
  induction post as [|[l t'] rest IH]; intros r' Hbt; [exact Hbt|].
  cbn [forallb] in Hpost. apply andb_true_iff in Hpost as [Hl Hrest].
  change (fold_left ent_step ((l, t') :: rest) r') with (fold_left ent_step rest (ent_step r' (l, t'))).
  apply IH; [exact Hrest|].
  rewrite step_business_type, Hbt. unfold has_label in Hl. cbn [fst] in Hl.
  apply negb_true_iff in Hl. rewrite ?Hl, ?(String.eqb_sym l), ?Hl.
  assert (Hs : is_none (business_type_of (py_strip t)) = false)
    by (unfold business_type_of; destruct (py_contains _ _); [reflexivity|];
        destruct (existsb _ _); reflexivity).
  rewrite Hs, andb_false_r, andb_false_l. reflexivity.
Qed.



Lemma regex_pass_fields (rs : string -> string -> option string) (text : string) (r : Entities) :
  is_none (e_ein r) = true -> is_none (e_phone r) = true -> is_none (e_email r) = true ->
  e_ein (regex_pass rs text r) = regex_value rs "ein" text /\
  e_phone (regex_pass rs text r) = regex_value rs "phone" text /\
  e_email (regex_pass rs text r) = regex_value rs "email" text.
Proof.
  intros H1 H2 H3. unfold regex_pass. rewrite H1. cbn -[is_none]. rewrite H2. cbn -[is_none].
  rewrite H3. cbn. repeat split.
Qed.

Lemma entity_field_dict (r : Entities) :
  entity_field (entities_dict r) "business_type" = e_business_type r /\
  entity_field (entities_dict r) "owner_name" = e_owner_name r /\
  entity_field (entities_dict r) "state" = e_state r /\
  entity_field (entities_dict r) "state_code" = e_state_code r /\
  entity_field (entities_dict r) "ein" = e_ein r /\
  entity_field (entities_dict r) "email" = e_email r /\
  entity_field (entities_dict r) "phone" = e_phone r /\
  entity_field (entities_dict r) "raw_entities" = PList (e_raw_entities r).
Proof. repeat split. Qed.

(** [normalize_state] only answers with a code of its table, together with the
    table's name for it in title case; the filing service accepts every such
    code except ["DC"]. *)
Theorem normalize_state_table_code (text full code : string) :
  normalize_state text = Some (full, code) ->
  exists name, In (name, code) NLU_US_STATES /\ full = py_title name /\
               (is_state_supported code = true <-> code <> "DC").
Proof.
  intros H. destruct (normalize_state_sound _ _ _ H) as [name [Hin Hf]].
  exists name. split; [exact Hin|]. split; [exact Hf|]. exact (nlu_code_supported _ _ Hin).
Qed.

Lemma normalize_state_table_code_witness :
  normalize_state "dc"%string = Some ("District Of Columbia"%string, "DC"%string) /\
  exists name, In (name, "DC"%string) NLU_US_STATES /\
    "District Of Columbia"%string = py_title name /\
    (is_state_supported "DC" = true <-> "DC"%string <> "DC"%string).
Proof.
  split; [vm_compute; reflexivity|].
  apply (normalize_state_table_code "dc"). vm_compute. reflexivity.
Defined.

Lemma lstrip_app_space (pre y : string) :
  py_all_space pre = true -> lstrip (pre ++ y) = lstrip y.
Proof.
  induction pre as [|c pre IH]; simpl; [reflexivity|].
  intros H. apply andb_true_iff in H as [Hc Hp]. rewrite Hc. apply IH, Hp.
Qed.

Lemma string_app_nil_r (s : string) : (s ++ "")%string = s.
Proof. induction s as [|c s IH]; simpl; [reflexivity | rewrite IH; reflexivity]. Qed.

Lemma string_app_assoc (a b c : string) : (a ++ (b ++ c))%string = ((a ++ b) ++ c)%string.
Proof. induction a as [|x a IH]; simpl; [reflexivity | rewrite IH; reflexivity]. Qed.

Lemma rev_string_app (a b : string) :
  rev_string (a ++ b) = (rev_string b ++ rev_string a)%string.
Proof.
  induction a as [|c a IH]; simpl.
  - rewrite string_app_nil_r. reflexivity.
  - rewrite IH. apply eq_sym, string_app_assoc.
Qed.

Lemma all_space_app (a b : string) :
  py_all_space a = true -> py_all_space b = true -> py_all_space (a ++ b) = true.
Proof.
  induction a as [|c a IH]; simpl; [auto|].
  intros H Hb. apply andb_true_iff in H as [Hc Ha]. rewrite Hc. apply IH; assumption.
Qed.

Lemma all_space_rev (a : string) : py_all_space a = true -> py_all_space (rev_string a) = true.
Proof.
  induction a as [|c a IH]; simpl; [auto|].
  intros H. apply andb_true_iff in H as [Hc Ha].
  apply all_space_app; [apply IH, Ha | simpl; rewrite Hc; reflexivity].
Qed.

Lemma lstrip_app_right (x post : string) :
  py_all_space post = true ->
  lstrip (x ++ post) = (lstrip x ++ post)%string \/
  (lstrip x = ""%string /\ lstrip (x ++ post) = ""%string).
Proof.
  intros Hp. induction x as [|c x IH]; simpl.
  - right. split; [reflexivity|].
    rewrite <- (string_app_nil_r post), lstrip_app_space by exact Hp. reflexivity.
  - destruct (py_isspace c); [exact IH | left; reflexivity].
Qed.

(** [str.strip()] ignores white space added on either side. *)
Lemma py_strip_pad (pre x post : string) :
  py_all_space pre = true -> py_all_space post = true ->
  py_strip (pre ++ x ++ post) = py_strip x.
Proof.
  intros Hpre Hpost. unfold py_strip. rewrite lstrip_app_space by exact Hpre.
  destruct (lstrip_app_right x post Hpost) as [H | [H1 H2]].
  - rewrite H, rev_string_app, lstrip_app_space by (apply all_space_rev, Hpost). reflexivity.
  - rewrite H1, H2. reflexivity.
Qed.

Lemma normalize_state_pad (pre x post : string) :
  py_all_space pre = true -> py_all_space post = true -> x <> ""%string ->
  normalize_state (pre ++ x ++ post) = normalize_state x.
Proof.
  intros Hpre Hpost Hx. unfold normalize_state.
  assert (E1 : String.eqb x "" = false) by (apply String.eqb_neq; exact Hx).
  assert (E2 : String.eqb (pre ++ x ++ post) "" = false).
  { apply String.eqb_neq. destruct x; [congruence|].
    destruct pre; simpl; discriminate. }
  rewrite E1, E2, py_strip_pad by assumption. reflexivity.
Qed.

(** For every state of the table, [normalize_state] maps its code, its
    lower-case name, its upper-case name and its lower-case code, each with
    any white space added on either side, to the title-cased name and the
    code. *)
Theorem normalize_state_round_trip (name code : string) :
  In (name, code) NLU_US_STATES ->
  forall input pre post, In input [code; name; py_upper name; py_lower code] ->
  py_all_space pre = true -> py_all_space post = true ->
  normalize_state (pre ++ input ++ post) = Some (py_title name, code).
Proof.
  intros Hin input pre post Hinput Hpre Hpost.
  pose proof (proj1 (forallb_forall _ _) nlu_table_round_trip_check _ Hin) as H. cbv beta iota in H.
  assert (Hinput' : In input [code; name; py_upper name; py_lower code;
                              (" " ++ py_upper name ++ nl)%string])
    by (simpl in Hinput |- *; tauto).
  pose proof (proj1 (forallb_forall _ _) H _ Hinput') as H2. cbv beta in H2.
  rewrite normalize_state_pad by (try assumption; intros ->; discriminate H2).
  destruct (normalize_state input) as [[f c]|]; [|discriminate].
  apply andb_true_iff in H2 as [Hf Hc]. apply String.eqb_eq in Hf, Hc. subst. reflexivity.
Qed.

Lemma normalize_state_round_trip_witness :
  normalize_state (" " ++ String "009" EmptyString ++ py_upper "new york" ++ nl ++ " ")%string
  = Some (py_title "new york", "NY"%string).
Proof.
  refine (normalize_state_round_trip "new york" "NY" _
            (py_upper "new york") (" " ++ String "009" EmptyString)%string (nl ++ " ")%string _ _ _).
  - repeat (first [left; reflexivity | right]).
  - right; right; left; reflexivity.
  - reflexivity.
  - reflexivity.
Defined.

(** [extract_entities]: [owner_name] is the stripped text of the first
    [PERSON] entity ([None] without one); [state] and [state_code] come from
    the first [GPE] or [LOC] entity whose text names a state, later places
    are ignored. *)
Theorem extract_entities_owner_state (rs : string -> string -> option string)
    (text : string) (ents : list (string * string)) :
  entity_field (extract_entities rs text ents) "owner_name" =
    match find (has_label "PERSON") ents with
    | Some e => PStr (py_strip (snd e))
    | None => PNone
    end /\
  (entity_field (extract_entities rs text ents) "state",
   entity_field (extract_entities rs text ents) "state_code") =
    match find place_entity ents with
    | Some e => match normalize_state (py_strip (snd e)) with
                | Some (full, code) => (PStr full, PStr code)
                | None => (PNone, PNone)
                end
    | None => (PNone, PNone)
    end.
Proof.
  unfold extract_entities.
  set (r := fold_left ent_step ents entities_init).
  destruct (entity_field_dict (regex_pass rs text r)) as (_ & Ho & Hs & Hc & _).
  destruct (regex_pass_keeps rs text r) as (_ & _ & Ko & Ks & Kc & _).
  rewrite Ho, Hs, Hc, Ko, Ks, Kc. split.
  - apply (fold_owner ents entities_init). reflexivity.
  - apply (fold_state ents entities_init). reflexivity.
Qed.

(** [extract_entities]: [state_code] is [None] (and then so is [state]), or a
    code of the table whose title-cased name is [state]; the filing service
    accepts it exactly when it is not ["DC"]. *)
Theorem extract_entities_state_code (rs : string -> string -> option string)
    (text : string) (ents : list (string * string)) :
  (entity_field (extract_entities rs text ents) "state" = PNone /\
   entity_field (extract_entities rs text ents) "state_code" = PNone) \/
  exists name code,
    In (name, code) NLU_US_STATES /\
    entity_field (extract_entities rs text ents) "state" = PStr (py_title name) /\
    entity_field (extract_entities rs text ents) "state_code" = PStr code /\
    (accepted_code (entity_field (extract_entities rs text ents) "state_code") = true <->
     code <> "DC").
Proof.
  unfold extract_entities.
  set (r := fold_left ent_step ents entities_init).
  destruct (entity_field_dict (regex_pass rs text r)) as (_ & _ & Hs & Hc & _).
  destruct (regex_pass_keeps rs text r) as (_ & _ & _ & Ks & Kc & _).
  rewrite Hs, Hc, Ks, Kc.
  pose proof (fold_state ents entities_init eq_refl) as F. fold r in F.
  destruct (find place_entity ents) as [e|];
    [destruct (normalize_state (py_strip (snd e))) as [[full code]|] eqn:Hn|].
  - right. injection F as -> ->.
    destruct (normalize_state_sound _ _ _ Hn) as [name [Hin Hf]].
    exists name, code. subst full. split; [exact Hin|]. split; [reflexivity|].
    split; [reflexivity|]. exact (nlu_code_supported _ _ Hin).
  - left. injection F as -> ->. split; reflexivity.
  - left. injection F as -> ->. split; reflexivity.
Qed.

(** [extract_entities]: a [BUSINESS_TYPE] entity sets [business_type] whatever
    was set before; with no [BUSINESS_TYPE] entity after it, the last one
    decides: ["LLC"] if its text contains "llc" in any case, else
    ["Corporation"] if it contains "corporation", "corp" or "inc", else its
    stripped text. *)
Theorem extract_entities_business_type_last (rs : string -> string -> option string)
    (text : string) (pre post : list (string * string)) (t : string) :
  forallb (fun e => negb (has_label "BUSINESS_TYPE" e)) post = true ->
  entity_field (extract_entities rs text (pre ++ [("BUSINESS_TYPE", t)] ++ post)) "business_type" =
  business_type_of (py_strip t).
Proof.
  intros Hpost. unfold extract_entities.
  set (r := fold_left ent_step _ entities_init).
  destruct (entity_field_dict (regex_pass rs text r)) as (Hb & _).
  destruct (regex_pass_keeps rs text r) as (Kb & _).
  rewrite Hb, Kb. apply fold_business_type_last. exact Hpost.
Qed.

Lemma extract_entities_business_type_last_witness :
  forallb (fun e => negb (has_label "BUSINESS_TYPE" e)) [("ORG", "Acme Corp"%string)] = true /\
  entity_field (extract_entities (fun _ _ => None) "x"
                  ([("BUSINESS_TYPE", "llc"%string)] ++ [("BUSINESS_TYPE", " sole proprietorship "%string)]
                   ++ [("ORG", "Acme Corp"%string)])) "business_type" =
  business_type_of (py_strip " sole proprietorship ").
Proof.
  split; [reflexivity|].
  apply (extract_entities_business_type_last (fun _ _ => None) "x"
           [("BUSINESS_TYPE", "llc"%string)] [("ORG", "Acme Corp"%string)]).
  reflexivity.
Defined.

(** [extract_entities]: [ein], [phone] and [email] are the first match of the
    field's pattern in the whole text ([None] without one), whatever spaCy
    found; [raw_entities] lists every entity, in order, as its stripped text
    and its label. *)
Theorem extract_entities_regex_raw (rs : string -> string -> option string)
    (text : string) (ents : list (string * string)) :
  entity_field (extract_entities rs text ents) "ein" = regex_value rs "ein" text /\
  entity_field (extract_entities rs text ents) "phone" = regex_value rs "phone" text /\
  entity_field (extract_entities rs text ents) "email" = regex_value rs "email" text /\
  entity_field (extract_entities rs text ents) "raw_entities" = PList (map raw_record ents).
Proof.
  unfold extract_entities.
  set (r := fold_left ent_step ents entities_init).
  destruct (entity_field_dict (regex_pass rs text r)) as (_ & _ & _ & _ & He & Hm & Hp & Hr).
  destruct (regex_pass_keeps rs text r) as (_ & _ & _ & _ & _ & Kr).
  destruct (fold_keeps ents entities_init) as (F1 & F2 & F3 & F4). fold r in F1, F2, F3, F4.
  destruct (regex_pass_fields rs text r) as (R1 & R2 & R3);
    [rewrite F1; reflexivity | rewrite F3; reflexivity | rewrite F2; reflexivity|].
  rewrite He, Hm, Hp, Hr, R1, R2, R3, Kr, F4. repeat split.
Qed.


(** ** [chat_service.py]: helpers *)

Lemma is_state_supported_nonempty (code : string) :
  is_state_supported code = true -> py_truthy (PStr code) = true.
Proof. destruct code; [discriminate | reflexivity]. Qed.

Lemma init_supported (code : string) (hl : bool) :
  is_state_supported code = true ->
  exists name, StateFilingService_init code hl = inr (mkService (py_upper code) name hl PNone false false false).
Proof.
  unfold is_state_supported, StateFilingService_init.
  destruct (lookup_state US_STATES (py_upper code)) as [name|]; [|discriminate].
  intros _. exists name. reflexivity.
Qed.

Lemma aenter_state (w : World) (json_loads : string -> option PyVal) (s : Service) tr s' tr1 :
  aenter w json_loads s tr = (inr s', tr1) ->
  state_code s' = state_code s /\ state_name s' = state_name s /\
  browser s' = true /\ playwright s' = true /\ page s' = true.
Proof.
  unfold aenter, try_except, bind, call_unit, raise, ret.
  repeat (answer_step; simpl); try discriminate.
  match goal with |- context [research_state_filing_process ?w ?j ?s ?t] =>
    destruct (research_state_filing_process w j s t) as [[e|cfg] tr'] end;
  intros H; inversion H; subst; simpl; auto.
Qed.

Lemma aexit_ok (w : World) (s : Service) tr :
  browser s = true -> playwright s = true ->
  (forall t, w_unit w t BrowserClose = None) -> (forall t, w_unit w t PlaywrightStop = None) ->
  aexit w s tr = (inr tt, tr ++ [Ev BrowserClose true; Ev PlaywrightStop true]).
Proof.
  intros Hb Hp Hc Hs. unfold aexit, try_finally, call_unit. rewrite Hb, Hp, Hc, Hs.
  rewrite <- app_assoc. reflexivity.
Qed.

Lemma build_business_data_dict (d : list (string * PyVal)) tr :
  build_business_data (PDict d) tr = (inr (business_data_of d), tr).
Proof. reflexivity. Qed.

Lemma build_business_data_dict_fun (d : list (string * PyVal)) :
  build_business_data (PDict d) = ret (business_data_of d).
Proof. reflexivity. Qed.


Lemma init_state (code : string) (hl : bool) (s0 : Service) :
  StateFilingService_init code hl = inr s0 ->
  state_code s0 = py_upper code /\ page s0 = false.
Proof.
  unfold StateFilingService_init. destruct (lookup_state US_STATES (py_upper code)); [|discriminate].
  intros H. injection H as <-. split; reflexivity.
Qed.

Ltac fws_open Hsc Hsup Hinit Hin :=
  unfold file_with_state, bind, py_get, py_get_default, ret;
  rewrite Hsc, (is_state_supported_nonempty _ Hsup), Hsup; cbv beta iota delta [negb];
  unfold try_except, open_session; rewrite Hinit;
  unfold async_with, bind, try_finally; cbv beta iota delta [negb];
  rewrite Hin; cbv beta iota delta [negb].

(** [file_with_state], once the session is open: the first stage among
    [login], [navigate_to_llc_filing] and [fill_llc_formation] that answers
    [False] ends the filing with that stage's error dict; no later stage runs,
    and only the closing of the browser and of Playwright follows. *)
Theorem file_with_state_stages (w : World) (json_loads : string -> option PyVal)
    (d : list (string * PyVal)) (code u p : string) (s0 s1 : Service) tr tr1 :
  assoc_get d "state_code" = Some (PStr code) ->
  is_state_supported code = true ->
  StateFilingService_init code false = inr s0 ->
  aenter w json_loads s0 tr = (inr s1, tr1) ->
  (forall t, w_unit w t BrowserClose = None) -> (forall t, w_unit w t PlaywrightStop = None) ->
  (forall tr2, login w json_loads s1 u p tr1 = (inr false, tr2) ->
     file_with_state w json_loads (PDict d) u p tr =
     (inr (stage_failure (PStr code) s1
             ("Login to " ++ state_name s1 ++ " SOS failed. Please check credentials.")%string),
      tr2 ++ [Ev BrowserClose true; Ev PlaywrightStop true])) /\
  (forall tr2 tr3, login w json_loads s1 u p tr1 = (inr true, tr2) ->
     navigate_to_llc_filing w s1 tr2 = (inr false, tr3) ->
     file_with_state w json_loads (PDict d) u p tr =
     (inr (stage_failure (PStr code) s1 "Failed to navigate to LLC filing page"),
      tr3 ++ [Ev BrowserClose true; Ev PlaywrightStop true])) /\
  (forall tr2 tr3 tr4, login w json_loads s1 u p tr1 = (inr true, tr2) ->
     navigate_to_llc_filing w s1 tr2 = (inr true, tr3) ->
     fill_llc_formation w json_loads s1 (business_data_of d) tr3 = (inr false, tr4) ->
     file_with_state w json_loads (PDict d) u p tr =
     (inr (stage_failure (PStr code) s1 "Failed to fill LLC formation form"),
      tr4 ++ [Ev BrowserClose true; Ev PlaywrightStop true])).
Proof.
  intros Hsc Hsup Hinit Hin Hc Hs.
  destruct (aenter_state _ _ _ _ _ _ Hin) as (_ & _ & Hb & Hp & _).
  split; [|split].
  - intros tr2 Hl. fws_open Hsc Hsup Hinit Hin.
    rewrite Hl. cbv beta iota delta [negb].
    rewrite (aexit_ok w s1 tr2 Hb Hp Hc Hs). reflexivity.
  - intros tr2 tr3 Hl Hn. fws_open Hsc Hsup Hinit Hin.
    rewrite Hl. cbv beta iota delta [negb]. rewrite Hn. cbv beta iota delta [negb].
    rewrite (aexit_ok w s1 tr3 Hb Hp Hc Hs). reflexivity.
  - intros tr2 tr3 tr4 Hl Hn Hf. fws_open Hsc Hsup Hinit Hin.
    rewrite Hl. cbv beta iota delta [negb]. rewrite Hn. cbv beta iota delta [negb].
    rewrite build_business_data_dict. cbv beta iota delta [negb]. rewrite Hf. cbv beta iota delta [negb].
    rewrite (aexit_ok w s1 tr4 Hb Hp Hc Hs). reflexivity.
Qed.

(** [file_with_state], once every stage has succeeded: the preview is the
    screenshot file ["<CODE>_llc_form.png"] of the upper-cased code. When
    the screenshot is written, the result has [success] [True] and carries
    the registry's state name and the [business_data] built from the
    entities. When the screenshot fails, the result is the
    ["Filing service error: ..."] dict. Either way the browser and Playwright
    are closed last. *)
Theorem file_with_state_screenshot (w : World) (json_loads : string -> option PyVal)
    (d : list (string * PyVal)) (code u p : string) (s0 s1 : Service) tr tr1 tr2 tr3 tr4 :
  assoc_get d "state_code" = Some (PStr code) ->
  is_state_supported code = true ->
  StateFilingService_init code false = inr s0 ->
  aenter w json_loads s0 tr = (inr s1, tr1) ->
  (forall t, w_unit w t BrowserClose = None) -> (forall t, w_unit w t PlaywrightStop = None) ->
  login w json_loads s1 u p tr1 = (inr true, tr2) ->
  navigate_to_llc_filing w s1 tr2 = (inr true, tr3) ->
  fill_llc_formation w json_loads s1 (business_data_of d) tr3 = (inr true, tr4) ->
  let fn := (py_upper code ++ "_llc_form.png")%string in
  (w_unit w tr4 (Screenshot fn) = None ->
   exists dd,
     file_with_state w json_loads (PDict d) u p tr =
       (inr (PDict dd), tr4 ++ [Ev (Screenshot fn) true; Ev BrowserClose true; Ev PlaywrightStop true]) /\
     assoc_get dd "success" = Some (PBool true) /\
     assoc_get dd "state_name" = Some (PStr (state_name s0)) /\
     assoc_get dd "preview_screenshot" = Some (PStr fn) /\
     assoc_get dd "business_data" = Some (business_data_of d)) /\
  (forall e, w_unit w tr4 (Screenshot fn) = Some e ->
   file_with_state w json_loads (PDict d) u p tr =
     (inr (PDict [("success", PBool false); ("state", PStr code);
                  ("error", PStr ("Filing service error: " ++ exn_str e)%string)]),
      tr4 ++ [Ev (Screenshot fn) false; Ev BrowserClose true; Ev PlaywrightStop true])).
Proof.
  intros Hsc Hsup Hinit Hin Hc Hs Hl Hn Hf fn.
  destruct (aenter_state _ _ _ _ _ _ Hin) as (Hcode & Hname & Hb & Hp & Hpg).
  destruct (init_state _ _ _ Hinit) as [Hcode0 _].
  assert (Hfn : (state_code s1 ++ "_llc_form.png")%string = fn) by (rewrite Hcode, Hcode0; reflexivity).
  split; [intros Hshot | intros e Hshot];
    fws_open Hsc Hsup Hinit Hin;
    rewrite Hl; cbv beta iota delta [negb]; rewrite Hn; cbv beta iota delta [negb];
    rewrite build_business_data_dict; cbv beta iota delta [negb]; rewrite Hf; cbv beta iota delta [negb];
    unfold take_screenshot, call_unit, bind, ret; rewrite Hpg, Hfn; cbv beta iota delta [negb];
    rewrite Hshot; cbv beta iota delta [negb].
  - rewrite (aexit_ok w s1 _ Hb Hp Hc Hs). eexists. split; [rewrite <- app_assoc; reflexivity|].
    rewrite Hname. repeat split.
  - rewrite (aexit_ok w s1 _ Hb Hp Hc Hs). rewrite <- app_assoc. reflexivity.
Qed.


Ltac split_results :=
  repeat (cbv beta iota delta [negb any_exception];
    match goal with
    | |- context [match ?X with (_, _) => _ end] =>
        lazymatch X with
        | (_, _) => fail
        | context [match _ with _ => _ end] => fail
        | _ => let e := fresh "e" in let a := fresh "a" in let t := fresh "tr" in
               destruct X as [[e|a] t]
        end
    | |- context [match ?X with Some _ => _ | None => _ end] =>
        lazymatch X with
        | Some _ => fail
        | None => fail
        | context [match _ with _ => _ end] => fail
        | _ => let e := fresh "e" in destruct X as [e|]
        end
    | |- context [match ?X with inl _ => _ | inr _ => _ end] =>
        lazymatch X with
        | inl _ => fail
        | inr _ => fail
        | context [match _ with _ => _ end] => fail
        | _ => let e := fresh "e" in let a := fresh "a" in destruct X as [e|a]
        end
    | |- context [if ?b then _ else _] =>
        lazymatch b with true => fail | false => fail | _ => destruct b end
    | |- context [match ?v with _ => _ end] => is_var v; destruct v
    end).

(** [file_with_state] on a dict, before any call: without a truthy
    [state_code] it answers ["No state specified in entities"], and with a
    code the registry does not know it answers ["Invalid state code: <code>.
    Must be valid US state code."]; in both cases nothing is called. *)
Theorem file_with_state_precheck (w : World) (json_loads : string -> option PyVal)
    (d : list (string * PyVal)) (u p : string) tr :
  (py_truthy (dict_get d "state_code") = false ->
   file_with_state w json_loads (PDict d) u p tr =
   (inr (PDict [("success", PBool false); ("error", PStr "No state specified in entities")]), tr)) /\
  (forall code, dict_get d "state_code" = PStr code -> code <> ""%string ->
   is_state_supported code = false ->
   file_with_state w json_loads (PDict d) u p tr =
   (inr (PDict [("success", PBool false);
                ("error", PStr ("Invalid state code: " ++ code ++ ". Must be valid US state code.")%string)]),
    tr)).
Proof.
  unfold file_with_state, bind, py_get, py_get_default, ret. fold (dict_get d "state_code").
  split.
  - intros H. rewrite H. reflexivity.
  - intros code H Hne Hsup. rewrite H. cbn [py_truthy].
    rewrite (proj2 (String.eqb_neq code "") Hne), Hsup. reflexivity.
Qed.

(** [file_with_state] on a dict raises exactly when [state_code] is truthy
    but not a [str] (an [AttributeError] on [.upper()], before any call);
    with a [str] or no [state_code] it returns a dict whose [success] is a
    bool, whatever the browser, the model and the site do. *)
Theorem file_with_state_raises (w : World) (json_loads : string -> option PyVal)
    (d : list (string * PyVal)) (u p : string) tr :
  (str_or_none (dict_get d "state_code") = true ->
   exists dd b tr', file_with_state w json_loads (PDict d) u p tr = (inr (PDict dd), tr') /\
                    assoc_get dd "success" = Some (PBool b)) /\
  (py_truthy (dict_get d "state_code") = true -> str_or_none (dict_get d "state_code") = false ->
   exists msg, file_with_state w json_loads (PDict d) u p tr = (inl (Exn AttributeError msg), tr)).
Proof.
  unfold file_with_state, bind, py_get, py_get_default, ret. fold (dict_get d "state_code").
  split.
  - destruct (dict_get d "state_code") as [| | |code| |] eqn:Hv; try discriminate; intros _;
      cbv beta iota delta [negb py_truthy];
      try (do 3 eexists; split; reflexivity).
    destruct (String.eqb code ""); cbv beta iota delta [negb];
      [do 3 eexists; split; reflexivity|].
    destruct (is_state_supported code); cbv beta iota delta [negb];
      [|do 3 eexists; split; reflexivity].
    unfold try_except, open_session.
    destruct (StateFilingService_init code false) as [e|s0]; [cbv beta iota; unfold raise; do 3 eexists; split; reflexivity|].
    unfold async_with, take_screenshot, call_unit, try_finally, bind, raise, ret.
    split_results; do 3 eexists; split; reflexivity.
  - destruct (dict_get d "state_code"); try discriminate; intros Ht _; rewrite Ht;
      eexists; reflexivity.
Qed.


(** The four stages of a filing never raise: [login],
    [navigate_to_llc_filing] and [fill_llc_formation] answer a bool, and
    [submit_form] answers a dict with a bool [success] and the state's name
    as [state], whatever the browser, the model and the site do. *)
Theorem filing_stages_never_raise (w : World) (json_loads : string -> option PyVal)
    (s : Service) (u p : string) (business_data : PyVal) tr :
  (exists b tr', login w json_loads s u p tr = (inr b, tr')) /\
  (exists b tr', navigate_to_llc_filing w s tr = (inr b, tr')) /\
  (exists b tr', fill_llc_formation w json_loads s business_data tr = (inr b, tr')) /\
  (exists dd b tr', submit_form w json_loads s tr = (inr (PDict dd), tr') /\
                    assoc_get dd "success" = Some (PBool b) /\
                    assoc_get dd "state" = Some (PStr (state_name s))).
Proof.
  split; [|split; [|split]].
  - unfold login, try_except, ret.
    match goal with |- context [match ?X with (_, _) => _ end] => destruct X as [[e|b] tr'] end;
    eexists _, _; reflexivity.
  - unfold navigate_to_llc_filing, try_except, ret.
    match goal with |- context [match ?X with (_, _) => _ end] => destruct X as [[e|b] tr'] end;
    eexists _, _; reflexivity.
  - unfold fill_llc_formation, try_except, ret.
    match goal with |- context [match ?X with (_, _) => _ end] => destruct X as [[e|b] tr'] end;
    eexists _, _; reflexivity.
  - unfold submit_form, try_except, bind, ret.
    split_results; do 3 eexists; split; try reflexivity; split; reflexivity.
Qed.

Ltac sf_open Hsc Hsup Hinit Hin :=
  unfold submit_filing, bind, py_get, py_get_default, ret;
  rewrite Hsc, (is_state_supported_nonempty _ Hsup); cbv beta iota delta [negb];
  unfold try_except, open_session_py, open_session; rewrite Hinit;
  unfold async_with, bind, try_finally; cbv beta iota delta [negb];
  rewrite Hin; cbv beta iota delta [negb].

(** [submit_filing], once the session is open: it logs in, navigates, fills
    and submits in that order whatever [login], [navigate_to_llc_filing] and
    [fill_llc_formation] answer, and returns [submit_form]'s dict with
    [business_data] set to the dict built from the entities and
    [submission_timestamp] set to the result's [url] (["Unknown"] without
    one); the browser and Playwright are closed last. *)
Theorem submit_filing_runs_all_stages (w : World) (json_loads : string -> option PyVal)
    (d : list (string * PyVal)) (code u p : string) (s0 s1 : Service)
    (b1 b2 b3 : bool) (r : list (string * PyVal)) tr tr1 tr2 tr3 tr4 tr5 :
  assoc_get d "state_code" = Some (PStr code) ->
  is_state_supported code = true ->
  StateFilingService_init code false = inr s0 ->
  aenter w json_loads s0 tr = (inr s1, tr1) ->
  (forall t, w_unit w t BrowserClose = None) -> (forall t, w_unit w t PlaywrightStop = None) ->
  login w json_loads s1 u p tr1 = (inr b1, tr2) ->
  navigate_to_llc_filing w s1 tr2 = (inr b2, tr3) ->
  fill_llc_formation w json_loads s1 (business_data_of d) tr3 = (inr b3, tr4) ->
  submit_form w json_loads s1 tr4 = (inr (PDict r), tr5) ->
  submit_filing w json_loads (PDict d) u p tr =
  (inr (PDict (assoc_set (assoc_set r "business_data" (business_data_of d))
                         "submission_timestamp"
                         (match assoc_get r "url" with Some x => x | None => PStr "Unknown" end))),
   tr5 ++ [Ev BrowserClose true; Ev PlaywrightStop true]).
Proof.
  intros Hsc Hsup Hinit Hin Hc Hs Hl Hn Hf Hsub.
  destruct (aenter_state _ _ _ _ _ _ Hin) as (_ & _ & Hb & Hp & _).
  sf_open Hsc Hsup Hinit Hin.
  rewrite Hl. cbv beta iota. rewrite Hn. cbv beta iota.
  rewrite build_business_data_dict. cbv beta iota. rewrite Hf. cbv beta iota.
  rewrite Hsub. unfold py_unpack, ret. cbv beta iota.
  rewrite (aexit_ok w s1 tr5 Hb Hp Hc Hs). reflexivity.
Qed.

(** [submit_filing] on a dict never raises: every exception, including the
    [ValueError] of an unknown state code, becomes a
    ["Submission failed: ..."] dict. For a non-empty code the registry does
    not know, that dict is returned before any call. *)
Theorem submit_filing_never_raises (w : World) (json_loads : string -> option PyVal)
    (d : list (string * PyVal)) (u p : string) tr :
  (exists dd tr', submit_filing w json_loads (PDict d) u p tr = (inr (PDict dd), tr')) /\
  (forall code, dict_get d "state_code" = PStr code -> code <> ""%string ->
   is_state_supported code = false ->
   submit_filing w json_loads (PDict d) u p tr =
   (inr (PDict [("success", PBool false); ("state", PStr code);
                ("error", PStr ("Submission failed: Invalid state code: " ++ code ++
                                ". Must be valid US state code.")%string)]), tr)).
Proof.
  unfold submit_filing, bind, py_get, py_get_default, ret. fold (dict_get d "state_code").
  split.
  - destruct (py_truthy (dict_get d "state_code")); cbv beta iota delta [negb];
      [|do 2 eexists; reflexivity].
    unfold try_except, open_session_py, open_session.
    destruct (dict_get d "state_code") as [| | |code| |];
      try (unfold raise; do 2 eexists; reflexivity).
    destruct (StateFilingService_init code false) as [e|s0];
      [cbv beta iota; unfold raise; do 2 eexists; reflexivity|].
    unfold async_with, try_finally, py_unpack, py_get_default, bind, raise, ret.
    split_results; do 2 eexists; reflexivity.
  - intros code H Hne Hsup. rewrite H. cbn [py_truthy].
    rewrite (proj2 (String.eqb_neq code "") Hne). cbv beta iota delta [negb].
    unfold try_except, open_session_py, open_session, StateFilingService_init.
    unfold is_state_supported in Hsup.
    destruct (lookup_state US_STATES (py_upper code)); [discriminate|]. reflexivity.
Qed.


(** [research_state_requirements]: when the model's research reply is JSON
    but not an object (a list, a string, a number...), [__aenter__] itself
    raises [AttributeError] on [.get] after the browser was launched; the
    answer is a ["Research failed: ..."] dict, and since [__aexit__] does not
    run for an exception of [__aenter__], neither the browser nor Playwright
    is ever closed. *)
Theorem research_non_object_reply_leaks (w : World) (json_loads : string -> option PyVal)
    (code reply : string) (v : PyVal) tr :
  is_state_supported code = true ->
  (forall t a, w_unit w t a = None) ->
  (forall t prompt, w_str w t (Generate prompt) = inr reply) ->
  json_loads (py_strip reply) = Some v ->
  (forall dd, v <> PDict dd) ->
  exists prompt,
    research_state_requirements w json_loads code tr =
    (inr (PDict [("success", PBool false); ("state", PStr code);
                 ("error", PStr ("Research failed: '" ++ py_type_name v ++
                                 "' object has no attribute 'get'")%string)]),
     tr ++ [Ev ImportPlaywright true; Ev PlaywrightStart true; Ev (Launch false) true;
            Ev NewPage true; Ev LLMNew true; Ev (Generate prompt) true]).
Proof.
  intros Hsup Hu Hg Hj Hv.
  destruct (init_supported code false Hsup) as [name Hinit].
  unfold research_state_requirements. rewrite Hsup. cbv beta iota delta [negb].
  unfold try_except, open_session. rewrite Hinit.
  unfold async_with, aenter, research_state_filing_process, json_loads_py, call_unit, call_str,
    try_except, py_get_default, bind, raise, ret.
  cbv beta iota. rewrite !Hu. cbv beta iota. rewrite Hg. cbv beta iota. rewrite Hj.
  cbv beta iota.
  destruct v as [| | | | |dd]; [| | | | |exfalso; exact (Hv dd eq_refl)];
    eexists; cbv beta iota delta [is_json_error exn_cls any_exception]; simpl exn_str;
    rewrite <- !app_assoc; reflexivity.
Qed.


(** [process_registration_request] never raises, and its last fallback
    ["collect_missing_info"] is unreachable: every answer is a dict whose
    [suggested_next] is something else. *)
Theorem process_registration_no_collect_missing_info (w : World)
    (nlu_extract : string -> M PyVal) (py_repr : PyVal -> string) (user_message : string) tr :
  exists dd tr',
    process_registration_request w nlu_extract py_repr user_message tr = (inr (PDict dd), tr') /\
    assoc_get dd "suggested_next" <> Some (PStr "collect_missing_info").
Proof.
  unfold process_registration_request, try_except, is_state_supported_py, py_get, py_get_default,
    call_str, bind, raise, ret.
  split_results; do 2 eexists; (split; [reflexivity | cbn; discriminate]).
Qed.

(** [process_registration_request] on the dict [d] the NLU answered, with a
    [str] or no [state_code]: [filing_available] is whether the registry
    accepts the code, [supported_states] is [None] exactly then, and
    [suggested_next] is ["proceed_to_registration_form"] or
    ["invalid_state_code"] when both [business_type] and [state_code] are
    truthy, else ["ask_for_business_type"] without a business type, else
    ["ask_for_state"]. A truthy [state_code] that is not a [str] ends in the
    ["error_occurred"] answer. *)
Theorem process_registration_routing (w : World)
    (nlu_extract : string -> M PyVal) (py_repr : PyVal -> string) (user_message : string)
    (d : list (string * PyVal)) (c : string) tr tr1 :
  nlu_extract user_message tr = (inr (PDict d), tr1) ->
  w_str w tr1 (Generate (registration_prompt py_repr user_message (PDict d))) = inr c ->
  let bt := dict_get d "business_type" in
  let sc := dict_get d "state_code" in
  let tr2 := tr1 ++ [Ev (Generate (registration_prompt py_repr user_message (PDict d))) true] in
  (str_or_none sc = true ->
   exists dd,
     process_registration_request w nlu_extract py_repr user_message tr = (inr (PDict dd), tr2) /\
     assoc_get dd "confirmation" = Some (PStr (py_strip c)) /\
     assoc_get dd "filing_available" = Some (PBool (accepted_code sc)) /\
     assoc_get dd "supported_states" =
       Some (if accepted_code sc then PNone else PList (map PStr get_supported_states)) /\
     assoc_get dd "suggested_next" =
       Some (PStr (if py_truthy bt then
                     if py_truthy sc then
                       if accepted_code sc then "proceed_to_registration_form" else "invalid_state_code"
                     else "ask_for_state"
                   else "ask_for_business_type"))) /\
  (py_truthy sc = true -> str_or_none sc = false ->
   exists dd,
     process_registration_request w nlu_extract py_repr user_message tr = (inr (PDict dd), tr2) /\
     assoc_get dd "suggested_next" = Some (PStr "error_occurred") /\
     assoc_get dd "filing_available" = Some (PBool false)).
Proof.
  intros Hn Hg bt sc tr2.
  unfold process_registration_request, try_except, is_state_supported_py, py_get, py_get_default,
    call_str, bind, raise, ret.
  rewrite Hn. cbv beta iota. rewrite Hg. cbv beta iota delta [negb].
  fold (dict_get d "business_type") (dict_get d "state_code"). fold bt sc.
  split.
  - intros Hs. destruct (py_truthy bt);
      destruct sc as [| | |code| |] eqn:Esc; try discriminate; cbv beta iota delta [py_truthy negb];
      [| destruct (String.eqb code "") eqn:Ee | | destruct (String.eqb code "") eqn:Ee];
      cbv beta iota delta [negb];
      eexists; (split; [reflexivity|]); cbn [assoc_get String.eqb Ascii.eqb Bool.eqb];
      rewrite ?Ee; repeat split.
    all: unfold accepted_code, is_state_supported.
    all: try (apply String.eqb_eq in Ee; subst code; reflexivity).
    all: destruct (lookup_state US_STATES (py_upper code)); reflexivity.
  - intros Ht Hs. destruct sc as [| | |code| |]; try discriminate; cbv beta iota;
      rewrite Ht; cbv beta iota; eexists; (split; [reflexivity|]); split; reflexivity.
Qed.


Lemma assoc_get_set (a : list (string * PyVal)) (k k' : string) (v : PyVal) :
  assoc_get (assoc_set a k v) k' = if String.eqb k' k then Some v else assoc_get a k'.
Proof.
  induction a as [|[k0 v0] rest IH]; simpl.
  - destruct (String.eqb k' k); reflexivity.
  - destruct (String.eqb_spec k k0) as [->|Hne]; simpl.
    + destruct (String.eqb k' k0); reflexivity.
    + rewrite IH. destruct (String.eqb_spec k' k0) as [->|]; [|reflexivity].
      destruct (String.eqb_spec k0 k); [congruence|reflexivity].
Qed.

Lemma assoc_get_app (l1 l2 : list (string * PyVal)) (k : string) :
  assoc_get (l1 ++ l2) k = match assoc_get l1 k with Some v => Some v | None => assoc_get l2 k end.
Proof.
  induction l1 as [|[k0 v0] rest IH]; simpl; [reflexivity|].
  destruct (String.eqb k k0); [reflexivity | exact IH].
Qed.

Lemma dict_update_get (d acc : list (string * PyVal)) (k : string) :
  assoc_get (dict_update acc d) k =
  match assoc_get (rev d) k with Some v => Some v | None => assoc_get acc k end.
Proof.
  unfold dict_update. revert acc. induction d as [|[k0 v0] rest IH]; intros acc; [reflexivity|].
  simpl. rewrite IH, assoc_get_app, assoc_get_set. simpl.
  destruct (assoc_get (rev rest) k); [reflexivity|].
  destruct (String.eqb k k0); reflexivity.
Qed.

Lemma dict_update_head (d acc : list (string * PyVal)) (k0 : string) (v0 : PyVal) :
  exists v, exists rest, dict_update ((k0, v0) :: acc) d = (k0, v) :: rest.
Proof.
  unfold dict_update. revert v0 acc. induction d as [|[k v] rest IH]; intros v0 acc;
    [exists v0, acc; reflexivity|].
  simpl. destruct (String.eqb k k0); apply IH.
Qed.

(** [generate_business_suggestions]: when the model's reply is a JSON object
    [d], the answer is [d] merged after [success]: ["success"] stays the
    first key, every key takes its last value in [d], and ["success"] is
    [True] unless [d] sets it. When the model call fails, or its reply is
    not JSON, or is JSON but not an object, the answer is the fixed fallback
    dict. The model is called once in every case. *)
Theorem generate_suggestions_merge (w : World) (json_loads : string -> option PyVal)
    (partial_request : string) tr :
  let a := Generate (suggestions_prompt partial_request) in
  match w_str w tr a with
  | inr reply =>
      match json_loads (py_strip reply) with
      | Some (PDict d) =>
          exists dd v rest,
            generate_business_suggestions w json_loads partial_request tr =
              (inr (PDict dd), tr ++ [Ev a true]) /\
            dd = ("success", v) :: rest /\
            forall k, assoc_get dd k =
                      match assoc_get (rev d) k with
                      | Some x => Some x
                      | None => if String.eqb k "success" then Some (PBool true) else None
                      end
      | _ => generate_business_suggestions w json_loads partial_request tr =
               (inr suggestions_fallback, tr ++ [Ev a true])
      end
  | inl _ => generate_business_suggestions w json_loads partial_request tr =
               (inr suggestions_fallback, tr ++ [Ev a false])
  end.
Proof.
  intros a.
  unfold generate_business_suggestions, try_except, json_loads_py, py_unpack, call_str, bind, raise, ret.
  fold a. destruct (w_str w tr a) as [e|reply]; cbv beta iota; [reflexivity|].
  destruct (json_loads (py_strip reply)) as [[| | | | |d]|]; cbv beta iota; try reflexivity.
  destruct (dict_update_head d [] "success" (PBool true)) as (v & rest & Hh).
  exists (dict_update [("success", PBool true)] d), v, rest.
  split; [reflexivity|]. split; [exact Hh|].
  intros k. rewrite dict_update_get. reflexivity.
Qed.


Ltac llc_warning_dir :=
  lazymatch goal with
  | |- In _ _ -> _ =>
      intros H; cbn [In app map] in H; repeat destruct H as [H|H]; try discriminate;
      try contradiction;
      try (split; [apply String.eqb_neq; assumption | first [reflexivity | assumption]])
  | |- _ =>
      intros Hr; cbn [In app map];
      try (exfalso; solve [ contradiction
                          | destruct Hr as [Hne Hx];
                            first [congruence | apply Hne, String.eqb_eq; assumption] ]);
      repeat (first [left; reflexivity | right])
  end.

(** [validate_business_data] when both fields are a [str] or [None]. *)
Lemma validate_business_data_str_fields (d : list (string * PyVal)) tr :
  let bn := dict_get d "business_name" in
  let sc := dict_get d "state_code" in
  str_or_none sc = true ->
  (str_or_none bn = true ->
   exists errs warns,
     validate_business_data (PDict d) tr =
       (inr (PDict [("valid", PBool (py_truthy bn && accepted_code sc));
                    ("errors", PList errs); ("warnings", PList warns);
                    ("entities", PDict d)]), tr) /\
     (In (PStr "Business name should include 'LLC' or 'Limited Liability Company'") warns <->
      match bn with
      | PStr s => s <> ""%string /\ existsb (fun x => py_contains (py_upper s) x) llc_suffixes = false
      | _ => False
      end)) /\
  (py_truthy bn = true -> str_or_none bn = false ->
   exists e, validate_business_data (PDict d) tr = (inl e, tr)).
Proof.
  intros bn sc. subst bn sc. unfold dict_get, str_or_none.
  unfold validate_business_data, is_filing_available, is_state_supported_py, py_len, py_str_upper,
    py_getitem, py_get, py_get_default, bind, ret, raise.
  destruct (assoc_get d "state_code") as [[| | |c| |]|]; intros Hsc; try discriminate;
  (split; [intros Hbn|intros Ht Hbn]);
  destruct (assoc_get d "business_name") as [[|b| |s| |]|]; try discriminate;
  cbv beta iota delta [negb py_truthy accepted_code];
  try (eexists; reflexivity);
  try (destruct b; [eexists; reflexivity | discriminate]).
  all: try destruct (String.eqb c "") eqn:Ec; try destruct (String.eqb s "") eqn:Es;
       cbv beta iota delta [negb]; try discriminate.
  all: try (apply String.eqb_eq in Ec; subst c).
  all: try destruct (is_state_supported c) eqn:Hc; cbv beta iota.
  all: try (cbv [py_truthy negb] in Ht;
            repeat match type of Ht with
                   | context [if ?x then _ else _] => destruct x; try discriminate
                   end; cbv beta iota).
  all: try (rewrite Ht; cbv beta iota; eexists; reflexivity).
  all: try (eexists; reflexivity).
  all: try destruct (Nat.ltb (String.length s) 3); try destruct (existsb _ llc_suffixes) eqn:Ex;
       cbv beta iota.
  all: do 2 eexists; split; [reflexivity|].
  all: repeat match goal with
              | |- context [if ?x then _ else _] =>
                  lazymatch x with true => fail | false => fail | _ => destruct x end
              end.
  all: cbv beta iota.
  all: split.
  all: llc_warning_dir.
Qed.

Lemma validate_business_data_nonstr_name (d : list (string * PyVal)) tr :
  py_truthy (dict_get d "business_name") = true ->
  str_or_none (dict_get d "business_name") = false ->
  exists e, validate_business_data (PDict d) tr = (inl e, tr).
Proof.
  unfold dict_get, str_or_none.
  unfold validate_business_data, is_filing_available, is_state_supported_py, py_len, py_str_upper,
    py_getitem, py_get, py_get_default, bind, ret, raise.
  intros Ht Hbn.
  destruct (assoc_get d "business_name") as [[|b| |s| |]|]; try discriminate;
  rewrite Ht; cbv beta iota;
  destruct (assoc_get d "state_code") as [[| | | | |]|]; cbv beta iota;
  repeat match goal with
         | |- context [if ?x then _ else _] =>
             lazymatch x with true => fail | false => fail | _ => destruct x end
         end; cbv beta iota; eexists; reflexivity.
Qed.

(** [validate_business_data] on a dict whose [business_name] and
    [state_code] are each a [str] or absent/[None]: it never raises and
    calls nothing, [valid] holds exactly when the business name is non-empty
    and the registry accepts the state code, and the warning asking for
    ["LLC"] is given exactly when the name is non-empty and its upper-cased
    form contains none of ["LLC"], ["L.L.C."], ["LIMITED LIABILITY COMPANY"].
    A truthy [business_name] that is not a [str] makes it raise, whatever
    the [state_code]. *)
Theorem validate_business_data_verdict (d : list (string * PyVal)) tr :
  let bn := dict_get d "business_name" in
  let sc := dict_get d "state_code" in
  (str_or_none sc = true -> str_or_none bn = true ->
   exists errs warns,
     validate_business_data (PDict d) tr =
       (inr (PDict [("valid", PBool (py_truthy bn && accepted_code sc));
                    ("errors", PList errs); ("warnings", PList warns);
                    ("entities", PDict d)]), tr) /\
     (In (PStr "Business name should include 'LLC' or 'Limited Liability Company'") warns <->
      match bn with
      | PStr s => s <> ""%string /\ existsb (fun x => py_contains (py_upper s) x) llc_suffixes = false
      | _ => False
      end)) /\
  (py_truthy bn = true -> str_or_none bn = false ->
   exists e, validate_business_data (PDict d) tr = (inl e, tr)).
Proof.
  intros bn sc. split.
  - intros Hsc. exact (proj1 (validate_business_data_str_fields d tr Hsc)).
  - apply validate_business_data_nonstr_name.
Qed.



Lemma file_with_state_stages_witness :
  exists s0 s1 tr1 tr2,
    assoc_get tx_entities "state_code" = Some (PStr "tx") /\
    is_state_supported "tx" = true /\
    StateFilingService_init "tx" false = inr s0 /\
    aenter (scripted_world "not json" "") Json.loads s0 [] = (inr s1, tr1) /\
    login (scripted_world "not json" "") Json.loads s1 "u" "p" tr1 = (inr false, tr2) /\
    file_with_state (scripted_world "not json" "") Json.loads (PDict tx_entities) "u" "p" [] =
    (inr (stage_failure (PStr "tx") s1
            ("Login to " ++ state_name s1 ++ " SOS failed. Please check credentials.")%string),
     tr2 ++ [Ev BrowserClose true; Ev PlaywrightStop true]).
Proof.
  do 4 eexists.
  split; [reflexivity|]. split; [vm_compute; reflexivity|].
  split; [vm_compute; reflexivity|]. split; [vm_compute; reflexivity|].
  split; [vm_compute; reflexivity|].
  refine (proj1 (file_with_state_stages (scripted_world "not json" "") Json.loads tx_entities
                   "tx" "u" "p" _ _ [] _ eq_refl _ _ _ (fun _ => eq_refl) (fun _ => eq_refl)) _ _).
  - vm_compute. reflexivity.
  - vm_compute. reflexivity.
  - vm_compute. reflexivity.
  - vm_compute. reflexivity.
Defined.

Lemma file_with_state_screenshot_witness :
  exists s0 s1 tr1 tr2 tr3 tr4,
    StateFilingService_init "tx" false = inr s0 /\
    aenter filing_world Json.loads s0 [] = (inr s1, tr1) /\
    login filing_world Json.loads s1 "u" "p" tr1 = (inr true, tr2) /\
    navigate_to_llc_filing filing_world s1 tr2 = (inr true, tr3) /\
    fill_llc_formation filing_world Json.loads s1 (business_data_of tx_entities) tr3 = (inr true, tr4) /\
    w_unit filing_world tr4 (Screenshot "TX_llc_form.png") = None /\
    exists dd,
      file_with_state filing_world Json.loads (PDict tx_entities) "u" "p" [] =
        (inr (PDict dd), tr4 ++ [Ev (Screenshot "TX_llc_form.png") true;
                                 Ev BrowserClose true; Ev PlaywrightStop true]) /\
      assoc_get dd "success" = Some (PBool true) /\
      assoc_get dd "state_name" = Some (PStr (state_name s0)) /\
      assoc_get dd "preview_screenshot" = Some (PStr "TX_llc_form.png") /\
      assoc_get dd "business_data" = Some (business_data_of tx_entities).
Proof.
  do 6 eexists.
  do 5 (split; [vm_compute; reflexivity|]).
  split; [reflexivity|].
  refine (proj1 (file_with_state_screenshot filing_world Json.loads tx_entities "tx" "u" "p"
                   _ _ [] _ _ _ _ eq_refl eq_refl _ _ (fun _ => eq_refl) (fun _ => eq_refl)
                   _ _ _) _); vm_compute; reflexivity.
Defined.

Lemma file_with_state_precheck_witness :
  file_with_state filing_world Json.loads (PDict [("state_code", PStr "zz")]) "u" "p" [] =
  (inr (PDict [("success", PBool false);
               ("error", PStr "Invalid state code: zz. Must be valid US state code.")]), []).
Proof.
  apply (proj2 (file_with_state_precheck filing_world Json.loads [("state_code", PStr "zz")]
                  "u" "p" []) "zz"); [reflexivity | discriminate | reflexivity].
Defined.

Lemma file_with_state_raises_witness :
  exists msg,
    file_with_state filing_world Json.loads (PDict [("state_code", PNum "48")]) "u" "p" [] =
    (inl (Exn AttributeError msg), []).
Proof.
  apply (proj2 (file_with_state_raises filing_world Json.loads [("state_code", PNum "48")]
                  "u" "p" [])); reflexivity.
Defined.

Lemma submit_filing_runs_all_stages_witness :
  exists s0 s1 tr1 b1 tr2 b2 tr3 b3 tr4 r tr5,
    StateFilingService_init "tx" false = inr s0 /\
    aenter filing_world Json.loads s0 [] = (inr s1, tr1) /\
    login filing_world Json.loads s1 "u" "p" tr1 = (inr b1, tr2) /\
    navigate_to_llc_filing filing_world s1 tr2 = (inr b2, tr3) /\
    fill_llc_formation filing_world Json.loads s1 (business_data_of tx_entities) tr3 = (inr b3, tr4) /\
    submit_form filing_world Json.loads s1 tr4 = (inr (PDict r), tr5) /\
    submit_filing filing_world Json.loads (PDict tx_entities) "u" "p" [] =
    (inr (PDict (assoc_set (assoc_set r "business_data" (business_data_of tx_entities))
                           "submission_timestamp"
                           (match assoc_get r "url" with Some x => x | None => PStr "Unknown" end))),
     tr5 ++ [Ev BrowserClose true; Ev PlaywrightStop true]).
Proof.
  do 11 eexists.
  do 6 (split; [vm_compute; reflexivity|]).
  refine (submit_filing_runs_all_stages filing_world Json.loads tx_entities "tx" "u" "p"
            _ _ _ _ _ _ [] _ _ _ _ _ eq_refl eq_refl _ _ (fun _ => eq_refl) (fun _ => eq_refl)
            _ _ _ _); vm_compute; reflexivity.
Defined.

Lemma submit_filing_never_raises_witness :
  submit_filing filing_world Json.loads (PDict [("state_code", PStr "zz")]) "u" "p" [] =
  (inr (PDict [("success", PBool false); ("state", PStr "zz");
               ("error", PStr "Submission failed: Invalid state code: zz. Must be valid US state code.")]),
   []).
Proof.
  apply (proj2 (submit_filing_never_raises filing_world Json.loads [("state_code", PStr "zz")]
                  "u" "p" []) "zz"); [reflexivity | discriminate | reflexivity].
Defined.

Lemma research_non_object_reply_leaks_witness :
  exists prompt,
    research_state_requirements (scripted_world "[1, 2]" "") Json.loads "tx" [] =
    (inr (PDict [("success", PBool false); ("state", PStr "tx");
                 ("error", PStr "Research failed: 'list' object has no attribute 'get'")]),
     [Ev ImportPlaywright true; Ev PlaywrightStart true; Ev (Launch false) true;
      Ev NewPage true; Ev LLMNew true; Ev (Generate prompt) true]).
Proof.
  apply (research_non_object_reply_leaks (scripted_world "[1, 2]" "") Json.loads "tx" "[1, 2]"
           (PList [PNum "1"; PNum "2"]) []).
  - vm_compute. reflexivity.
  - intros. reflexivity.
  - intros. reflexivity.
  - vm_compute. reflexivity.
  - discriminate.
Defined.

Lemma process_registration_routing_witness :
  exists dd,
    process_registration_request (scripted_world "I'll help you form it. " "")
      (fun _ => ret (PDict [("business_type", PStr "LLC"); ("state_code", PStr "DC")]))
      (fun _ => "{...}") "An LLC in Washington DC" [] =
    (inr (PDict dd),
     [Ev (Generate (registration_prompt (fun _ => "{...}") "An LLC in Washington DC"
                      (PDict [("business_type", PStr "LLC"); ("state_code", PStr "DC")]))) true]) /\
    assoc_get dd "confirmation" = Some (PStr (py_strip "I'll help you form it. ")) /\
    assoc_get dd "filing_available" = Some (PBool false) /\
    assoc_get dd "supported_states" = Some (PList (map PStr get_supported_states)) /\
    assoc_get dd "suggested_next" = Some (PStr "invalid_state_code").
Proof.
  apply (proj1 (process_registration_routing (scripted_world "I'll help you form it. " "")
           (fun _ => ret (PDict [("business_type", PStr "LLC"); ("state_code", PStr "DC")]))
           (fun _ => "{...}") "An LLC in Washington DC"
           [("business_type", PStr "LLC"); ("state_code", PStr "DC")]
           "I'll help you form it. " [] [] eq_refl eq_refl)).
  reflexivity.
Defined.

Lemma validate_business_data_verdict_witness :
  (exists errs warns,
    validate_business_data (PDict [("business_name", PStr "acme"); ("state_code", PStr "tx")]) [] =
      (inr (PDict [("valid", PBool true); ("errors", PList errs); ("warnings", PList warns);
                   ("entities", PDict [("business_name", PStr "acme"); ("state_code", PStr "tx")])]),
       []) /\
    (In (PStr "Business name should include 'LLC' or 'Limited Liability Company'") warns <->
     "acme"%string <> ""%string /\
     existsb (fun x => py_contains (py_upper "acme") x) llc_suffixes = false)) /\
  exists e,
    validate_business_data (PDict [("business_name", PNum "7"); ("state_code", PNum "48")]) [] =
    (inl e, []).
Proof.
  split.
  - apply (proj1 (validate_business_data_verdict
                    [("business_name", PStr "acme"); ("state_code", PStr "tx")] []) eq_refl eq_refl).
  - apply (proj2 (validate_business_data_verdict
                    [("business_name", PNum "7"); ("state_code", PNum "48")] [])); vm_compute; reflexivity.
Defined.
